(** * gotype: the runner of [run/run.go]

    A shallow embedding of package [run] of weblfe/gotype: the classifier
    ([commandType.Eq], [commandType.Match], [Runner.getType]), the three
    mode handlers ([parseType], [parseAll], [parsePath]), [Runner.Bind]
    and the dispatcher [Runner.Exec], followed by the properties of the
    specification that concern them.

    Go strings are byte sequences and are modelled by [string] (one
    [ascii] per byte).  The functions of Go's [strings] package the
    program calls are modelled in [Module strings]; what the operating
    system decides (the subprocess, the file system, the environment) is
    read from a [Host]. *)

From stdpp Require Import gmap strings list.
From Stdlib Require Import Ascii String NArith Lia.

Local Open Scope string_scope.
Local Open Scope N_scope.

(** ** Go's [strings] package *)

(** The Unicode tables of Go's [unicode] package are not part of the
    program.  Every function below follows the ASCII fast path of the Go
    implementation byte by byte and hands the input over to one of these
    functions exactly where the Go code leaves its fast path. *)
Record Unicode := {
  (** the [hasUnicode] loop of [strings.EqualFold] on the two suffixes *)
  equalFoldRunes : string -> string -> bool;
  (** [strings.Map(unicode.ToLower, s)] *)
  mapToLower : string -> string;
  (** [strings.TrimFunc(s, unicode.IsSpace)] *)
  trimFuncIsSpace : string -> string;
  (** [strings.TrimRightFunc(s, unicode.IsSpace)] *)
  trimRightFuncIsSpace : string -> string;
  (** [strings.Split(s, "")]: one piece per UTF-8 sequence *)
  explode : string -> list string
}.

Module strings.

Definition byte (c : ascii) : N := N_of_ascii c.

(** [utf8.RuneSelf] = 0x80 *)
Definition RuneSelf : N := 128.

Definition isUpper (c : ascii) : bool := (65 <=? byte c) && (byte c <=? 90).

(** [c += 'a' - 'A'] for an upper-case ASCII letter *)
Definition lowerByte (c : ascii) : ascii :=
  if isUpper c then ascii_of_N (byte c + 32) else c.

Fixpoint isASCII (s : string) : bool :=
  match s with
  | "" => true
  | String c s' => (byte c <? RuneSelf) && isASCII s'
  end.

Fixpoint mapBytes (f : ascii -> ascii) (s : string) : string :=
  match s with
  | "" => ""
  | String c s' => String (f c) (mapBytes f s')
  end.

(** [strings.HasPrefix(s, prefix)] *)
Fixpoint HasPrefix (s prefix : string) : bool :=
  match prefix, s with
  | "", _ => true
  | String p prefix', String c s' => Ascii.eqb c p && HasPrefix s' prefix'
  | String _ _, "" => false
  end.

(** [strings.HasSuffix(s, suffix)] *)
Definition HasSuffix (s suffix : string) : bool :=
  HasPrefix (String.rev s) (String.rev suffix).

(** [strings.Contains(s, substr)], that is [Index(s, substr) >= 0] *)
Fixpoint Contains (s substr : string) : bool :=
  HasPrefix s substr ||
  match s with
  | "" => false
  | String _ s' => Contains s' substr
  end.

(** One step of the ASCII loop of [EqualFold]: equal bytes, or an
    upper-case letter and its lower-case form. *)
Definition foldEqByte (sr tr : ascii) : bool :=
  if byte tr =? byte sr then true
  else
    let lo := N.min (byte sr) (byte tr) in
    let hi := N.max (byte sr) (byte tr) in
    (65 <=? lo) && (lo <=? 90) && (hi =? lo + 32).

Section WithUnicode.
Variable U : Unicode.

(** [strings.EqualFold(s, t)] *)
Fixpoint EqualFold (s t : string) : bool :=
  match s, t with
  | String sr s', String tr t' =>
      if (RuneSelf <=? byte sr) || (RuneSelf <=? byte tr)
      then equalFoldRunes U s t
      else foldEqByte sr tr && EqualFold s' t'
  | "", "" => true
  | _, _ => false
  end.

(** [strings.ToLower(s)] *)
Definition ToLower (s : string) : string :=
  if isASCII s then mapBytes lowerByte s else mapToLower U s.

Definition asciiSpace (c : ascii) : bool :=
  let n := byte c in
  (n =? 9) || (n =? 10) || (n =? 11) || (n =? 12) || (n =? 13) || (n =? 32).

(** The second loop of [TrimSpace], on the reversed remainder. *)
Fixpoint trimStop (r : string) : string :=
  match r with
  | "" => ""
  | String c r' =>
      if RuneSelf <=? byte c then trimRightFuncIsSpace U (String.rev r)
      else if asciiSpace c then trimStop r'
      else String.rev r
  end.

(** [strings.TrimSpace(s)] *)
Fixpoint TrimSpace (s : string) : string :=
  match s with
  | "" => ""
  | String c s' =>
      if RuneSelf <=? byte c then trimFuncIsSpace U s
      else if asciiSpace c then TrimSpace s'
      else trimStop (String.rev s)
  end.

(** The loop of [genSplit] for a separator that is not empty: [skip]
    counts the bytes of a separator found that are still to be
    passed, [cur] holds the piece being read, reversed. *)
Fixpoint splitLoop (sep s : string) (skip : nat) (cur : string) : list string :=
  match s with
  | "" => [String.rev cur]
  | String c s' =>
      match skip with
      | S k => splitLoop sep s' k cur
      | O =>
          if HasPrefix s sep
          then String.rev cur :: splitLoop sep s' (String.length sep - 1) ""
          else splitLoop sep s' O (String c cur)
      end
  end.

(** [strings.Split(s, sep)] *)
Definition Split (s sep : string) : list string :=
  match sep with
  | "" => explode U s
  | String _ _ => splitLoop sep s O ""
  end.

End WithUnicode.

(** [strings.Join(elems, sep)] *)
Fixpoint Join (elems : list string) (sep : string) : string :=
  match elems with
  | [] => ""
  | [e] => e
  | e :: rest => e ++ sep ++ Join rest sep
  end.

End strings.

(** ** The operating system *)

(** An [*os.File]. *)
Inductive File := Stdin | Stdout | Stderr | Opened (fd : nat).

(** A Go [error]: [nil] or a value with its message. *)
Definition error := option string.

Record Host := {
  unicode : Unicode;
  (** [os.Getenv] *)
  Getenv : string -> string;
  (** [exec.Command(name, args...)] with the environment of the caller,
      then [Output()]: the bytes of the standard output and the error *)
  Output : string -> list string -> string * error;
  (** [filepath.Abs] *)
  Abs : string -> string * error;
  (** [os.Stat], of which the program only looks at the error *)
  Stat : string -> error;
  (** whether a write to the file succeeds *)
  Writes : File -> bool
}.

(** What a run does to the outside: the subprocesses it starts and the
    texts it writes to files. *)
Inductive Event :=
| Spawn (name : string) (args : list string)
| Written (f : File) (text : string).


(** ** Package [run] *)

Module run.

(** [type commandType string] *)
Definition commandType := string.

Record typeMatch := {
  T : commandType;
  MatchWords : list string
}.

Definition builtInType : string := "BUILTIN_TYPE_BIN".
Definition defaultBind : string := "/usr/bin/type".
Definition TypeAlias : commandType := "alias".
Definition TypeKeyword : commandType := "keyword".
Definition TypeFunction : commandType := "function".
Definition TypeBuiltin : commandType := "builtin".
Definition TypeFile : commandType := "file".
Definition TypeUnFound : commandType := "unfound".

Definition types : list commandType :=
  [TypeAlias; TypeKeyword; TypeFunction; TypeBuiltin; TypeFile; TypeUnFound].

Definition typesMatches : gmap commandType typeMatch :=
  <[TypeAlias := {| T := TypeAlias; MatchWords := ["alias"] |}]>
  (<[TypeKeyword := {| T := TypeKeyword; MatchWords := ["word"] |}]>
  (<[TypeFunction := {| T := TypeFunction; MatchWords := ["shell function"; "function"] |}]>
  (<[TypeBuiltin := {| T := TypeBuiltin; MatchWords := ["builtin"] |}]>
  (<[TypeFile := {| T := TypeFile; MatchWords := ["file"; "is"] |}]>
  (<[TypeUnFound := {| T := TypeUnFound; MatchWords := ["not"; "found"] |}]> ∅))))).

Definition shortFlagMap : gmap string string :=
  <["-t" := "type"]> (<["-a" := "all"]> (<["-p" := "path"]> ∅)).

(** [commandType.String] *)
Definition String_ (ty : commandType) : string := ty.

Section Classifier.
Variable U : Unicode.

(** [commandType.Eq] *)
Definition Eq (ty : commandType) (str : string) : bool :=
  strings.EqualFold U str (String_ ty).

(** The [for _, w := range v.MatchWords] loop of [Match]. *)
Fixpoint anyWord (info : string) (words : list string) : bool :=
  match words with
  | [] => false
  | w :: rest => if strings.Contains info w then true else anyWord info rest
  end.

(** [commandType.Match] *)
Definition Match (ty : commandType) (info : string) : bool :=
  if Eq ty info then true
  else
    match typesMatches !! ty with
    | Some v => anyWord info (MatchWords v)
    | None => false
    end.

(** The [for _, v := range types] loop of [getType]. *)
Fixpoint firstMatch (vs : list commandType) (info : string) : commandType :=
  match vs with
  | [] => TypeUnFound
  | v :: rest => if Match v info then v else firstMatch rest info
  end.

(** [Runner.getType] *)
Definition getType (info : string) : commandType := firstMatch types info.

End Classifier.

(** *** Runner and Result *)

(** The three method values [createHandlers] stores in the handler table. *)
Inductive handlerFn := fnParseType | fnParseAll | fnParsePath.

Record Runner := {
  bin : string;
  err : option File;
  output : option File;
  input : option File;
  flagHandlers : option (gmap string handlerFn)
}.

Module Result.
Record Result := { output : string; err : error }.
End Result.
Abbreviation Result := Result.Result.

(** [NewResult]: [new(Result)] *)
Definition NewResult : Result := {| Result.output := ""; Result.err := None |}.

(** [Result.Get] *)
Definition Get (rs : Result) : string := Result.output rs.

(** [Result.HasErr] *)
Definition HasErr (rs : Result) : bool :=
  match Result.err rs with
  | None => false
  | Some _ => true
  end.

(** [Result.Err] *)
Definition Err (rs : Result) : error := Result.err rs.

(** [Result.Deal]; a [nil] handler is [None]. *)
Definition Deal (rs : Result) (handler : option (string -> bool)) : bool :=
  match handler with
  | None => false
  | Some h => if HasErr rs then false else h (Get rs)
  end.

(** [new(Runner)] *)
Definition zeroRunner : Runner :=
  {| bin := ""; err := None; output := None; input := None; flagHandlers := None |}.

Definition setBin (r : Runner) (p : string) : Runner :=
  {| bin := p; err := err r; output := output r; input := input r;
     flagHandlers := flagHandlers r |}.

Definition setFlagHandlers (r : Runner) (hs : gmap string handlerFn) : Runner :=
  {| bin := bin r; err := err r; output := output r; input := input r;
     flagHandlers := Some hs |}.

(** [Runner.SetOut] *)
Definition SetOut (r : Runner) (err input output : option File) : Runner :=
  {| bin := bin r; err := err; output := output; input := input;
     flagHandlers := flagHandlers r |}.

(** [Runner.createHandlers] *)
Definition createHandlers : gmap string handlerFn :=
  <["type" := fnParseType]> (<["all" := fnParseAll]> (<["path" := fnParsePath]> ∅)).

(** *** Methods with effects

    A method of [*Runner] reads and updates the runner it is called on,
    starts subprocesses, writes to files, and may panic; a panic leaves
    the runner as it was when the panic was raised. *)

Inductive Outcome (A : Type) :=
| Returned (a : A) (r : Runner)
| Panicked (msg : string) (r : Runner).
Arguments Returned {A} a r.
Arguments Panicked {A} msg r.

Definition Go (A : Type) : Type := Runner -> Outcome A * list Event.

Definition ret {A} (a : A) : Go A := fun r => (Returned a r, []).

Definition bind {A B} (m : Go A) (k : A -> Go B) : Go B := fun r =>
  match m r with
  | (Returned a r', t) => let (o, t') := k a r' in (o, (t ++ t')%list)
  | (Panicked msg r', t) => (Panicked msg r', t)
  end.

Notation "'let*' p ':=' m 'in' k" := (bind m (fun p => k))
  (at level 10, p pattern, m at level 100, k at level 200).

Definition panic {A} (msg : string) : Go A := fun r => (Panicked msg r, []).
Definition emit (e : Event) : Go unit := fun r => (Returned tt r, [e]).
Definition this : Go Runner := fun r => (Returned r r, []).
Definition store (r' : Runner) : Go unit := fun _ => (Returned tt r', []).

(** [l[i]]: the element, or the run-time panic of an index out of range. *)
Definition index (l : list string) (i : nat) : Go string :=
  match l !! i with
  | Some x => ret x
  | None => panic "runtime error: index out of range"
  end.

Definition newline : string := String "010"%char "".

(** [fmt.Sprint] of operands that are all strings: no space is added. *)
Definition Sprint (args : list string) : string := strings.Join args "".

(** [fmt.Sprintln]: a space between operands and a newline at the end. *)
Definition Sprintln (args : list string) : string := strings.Join args " " ++ newline.

(** [filepath.IsAbs] on Unix *)
Definition IsAbs (path : string) : bool := strings.HasPrefix path "/".

Section WithHost.
Variable H : Host.
Let U := unicode H.

(** [GetEnvOr] *)
Definition GetEnvOr (key : string) (defaultValue : list string) : string :=
  let defaultValue := (defaultValue ++ [""])%list in
  let v := Getenv H key in
  if String.eqb v "" then hd "" defaultValue else v.

(** [Runner.init] *)
Definition init (r : Runner) : Runner :=
  setFlagHandlers (setBin r (GetEnvOr builtInType [defaultBind])) createHandlers.

(** [NewRunner] *)
Definition NewRunner (err input output : option File) : Runner :=
  SetOut (init zeroRunner) err input output.

(** [fmt.Fprint(f, ...)] of a text already formatted: the number of bytes
    written, 0 with the error of a [nil] file or of a failed write. *)
Definition Fwrite (f : option File) (text : string) : Go (nat * error) :=
  match f with
  | None => ret (O, Some "invalid argument")
  | Some f =>
      if Writes H f
      then (let* _ := emit (Written f text) in ret (String.length text, None))
      else ret (O, Some "write error")
  end.

Definition written (res : nat * error) : nat :=
  match res with
  | (n, None) => n
  | (_, Some _) => O
  end.

(** [Runner.print] *)
Definition print (args : list string) : Go nat :=
  let* r := this in
  match output r with
  | None => let* res := Fwrite (Some Stdout) (Sprint args) in ret (written res)
  | Some _ => let* res := Fwrite (output r) (Sprint args) in ret (written res)
  end.

(** [Runner.println] *)
Definition println (args : list string) : Go nat :=
  let* r := this in
  match output r with
  | None => let* res := Fwrite (Some Stdout) (Sprintln args) in ret (written res)
  | Some _ => let* res := Fwrite (output r) (Sprintln args) in ret (written res)
  end.

(** [Runner.errLog] *)
Definition errLog (args : list string) : Go nat :=
  let* r := this in
  match output r with
  | None => let* res := Fwrite (Some Stdout) (Sprintln args) in ret (written res)
  | Some _ => let* res := Fwrite (err r) (Sprintln args) in ret (written res)
  end.

(** [Runner.Bind] *)
Definition Bind (bin : string) : Go unit :=
  if String.eqb bin "" then ret tt
  else if negb (IsAbs bin) then
    let (p, err) := Abs H bin in
    match err with
    | Some msg => let* _ := errLog ["ERROR:"; msg] in ret tt
    | None =>
        match Stat H p with
        | Some msg => let* _ := errLog ["ERROR:"; msg] in ret tt
        | None => let* r := this in store (setBin r p)
        end
    end
  else ret tt.

(** [r.command(args)] followed by [command.Output()] *)
Definition commandOutput (args : list string) : Go (string * error) :=
  let* r := this in
  let* _ := emit (Spawn (run.bin r) args) in
  ret (Output H (run.bin r) args).

(** [Runner.parseType] *)
Definition parseType (cmd : string) : Go (string * error) :=
  let args := ["-a"; cmd] in
  let* (bytes, err) := commandOutput args in
  match err with
  | Some _ => ret (String_ TypeUnFound, None)
  | None =>
      if (String.length bytes <=? 0)%nat then ret (String_ TypeUnFound, None)
      else
        let lines := strings.Split U bytes newline in
        let* line := index lines 0 in
        ret (String_ (getType U line), None)
  end.

(** [Runner.parseAll] *)
Definition parseAll (cmd : string) : Go (string * error) :=
  let args := ["-a"; cmd] in
  let* (bytes, err) := commandOutput args in
  match err with
  | Some _ => ret (cmd ++ " not found", None)
  | None => ret (bytes, None)
  end.

(** [Runner.parsePath] *)
Definition parsePath (cmd : string) : Go (string * error) :=
  let args := ["-a"; cmd] in
  let* (bytes, err) := commandOutput args in
  match err with
  | Some _ => ret (cmd ++ " not found", None)
  | None =>
      let lines := strings.Split U bytes newline in
      let* line := index lines 0 in
      let ty := getType U line in
      if String.eqb ty TypeFile then
        let index_ := 1%nat in
        let argc := List.length lines in
        let index_ := if (argc <? 2)%nat then 0%nat else index_ in
        let* line := index lines index_ in
        let paths := strings.Split U line "is" in
        let* path := index paths 1 in
        ret (strings.TrimSpace U path, None)
      else ret ("", None)
  end.

(** Calling a value of the handler table. *)
Definition call (fn : handlerFn) (cmd : string) : Go (string * error) :=
  match fn with
  | fnParseType => parseType cmd
  | fnParseAll => parseAll cmd
  | fnParsePath => parsePath cmd
  end.

(** [Runner.short2Long] *)
Definition short2Long (flag : string) : string :=
  match shortFlagMap !! strings.ToLower U flag with
  | Some v => v
  | None => flag
  end.

(** [Runner.check] *)
Definition check : Go error :=
  let* r := this in
  let* _ := match flagHandlers r with
       | None => store (setFlagHandlers r createHandlers)
       | Some _ => ret tt
       end in
  let* r := this in
  if String.eqb (run.bin r) "" then ret (Some ("miss init type built env:" ++ builtInType))
  else ret None.

(** [Runner.Exec] *)
Definition Exec (flag cmd : string) : Go Result :=
  let rs := NewResult in
  let* err := check in
  match err with
  | Some msg =>
      let rs := {| Result.output := Result.output rs; Result.err := Some msg |} in
      let* _ := errLog ["cmd err:"; msg] in
      ret rs
  | None =>
      if String.eqb cmd "" then ret rs
      else
        let flag := if strings.HasPrefix flag "-" then short2Long flag else flag in
        let* r := this in
        let* rs := match default ∅ (flagHandlers r) !! flag with
              | Some fn =>
                  let* (out, err) := call fn cmd in
                  ret {| Result.output := out; Result.err := err |}
              | None =>
                  ret {| Result.output := Result.output rs;
                         Result.err := Some (flag ++ ":flag undefined ") |}
              end in
        let out := Get rs in
        let* _ := (if strings.HasSuffix out newline then print [out] else println [out]) in
        ret rs
  end.

End WithHost.

(** *** Observing a call *)

(** The value a call returns, if it returns. *)
Definition returned {A} (o : Outcome A * list Event) : option A :=
  match o with
  | (Returned a _, _) => Some a
  | (Panicked _ _, _) => None
  end.

(** The runner after the call. *)
Definition after {A} (o : Outcome A * list Event) : Runner :=
  match o with
  | (Returned _ r, _) => r
  | (Panicked _ r, _) => r
  end.

Definition isSpawn (e : Event) : bool :=
  match e with
  | Spawn _ _ => true
  | Written _ _ => false
  end.

(** The fields of a [Runner] are not exported: outside the package a
    runner is the zero value or comes from [NewRunner], and changes only
    through the exported methods. *)
Inductive reachable (H : Host) : Runner -> Prop :=
| reach_zero : reachable H zeroRunner
| reach_NewRunner err input output : reachable H (NewRunner H err input output)
| reach_SetOut r err input output :
    reachable H r -> reachable H (SetOut r err input output)
| reach_Bind r bin : reachable H r -> reachable H (after (Bind H bin r))
| reach_Exec r flag cmd : reachable H r -> reachable H (after (Exec H flag cmd r)).

(** The lookup binary is bound. *)
Definition bound (r : Runner) : Prop := bin r <> "".

End run.

(** ** Concrete hosts

    The runs evaluated below are all on ASCII text, where none of the
    functions of [Unicode] is reached; [asciiOnly] fills them in with what
    Go does on ASCII input. *)

Definition asciiOnly : Unicode := {|
  equalFoldRunes := fun _ _ => false;
  mapToLower := strings.mapBytes strings.lowerByte;
  trimFuncIsSpace := fun s => s;
  trimRightFuncIsSpace := fun s => s;
  explode := fun s => map (fun c => String c "") (list_ascii_of_string s)
|}.

(** A machine without [BUILTIN_TYPE_BIN] in the environment, with working
    directory [/work], on which [/bin/sh] and [/work/mytype] exist, and
    whose lookup prints [out] and ends with [err]. *)
Definition machine (out : string) (err : error) : Host := {|
  unicode := asciiOnly;
  Getenv := fun _ => "";
  Output := fun _ _ => (out, err);
  Abs := fun p => if run.IsAbs p then (p, None) else ("/work/" ++ p, None);
  Stat := fun p =>
    if String.eqb p "/bin/sh" || String.eqb p "/work/mytype" then None
    else Some ("stat " ++ p ++ ": no such file or directory");
  Writes := fun _ => true
|}.

(** The runner of [cmd/root.go] before its [Bind]. *)
Definition rootRunner (H : Host) : run.Runner :=
  run.NewRunner H (Some Stdin) (Some Stderr) (Some Stdout).

(** The output of a lookup that finds [ls] in two directories. *)
Definition twoFiles : string :=
  "ls is /usr/bin/ls" ++ run.newline ++ "ls is /bin/ls" ++ run.newline.

(** ** Package [cmd] *)

Module cmd.

(** The closure [Run] of [rootCmd] in [cmd/root.go].  [bin] is the package
    variable [initConfig] sets, [GetString] is [cmd.Flags().GetString];
    the runner is made, bound and used within the call. *)
Definition Run (H : Host) (bin : string) (GetString : string -> string * error)
  : run.Outcome unit * list Event :=
  run.bind (run.Bind H bin) (fun _ =>
    let (v, err) := GetString "path" in
    if match err with None => true | Some _ => false end && negb (String.eqb v "")
    then run.bind (run.Exec H "path" v) (fun _ => run.ret tt)
    else
      let (v, err) := GetString "all" in
      if match err with None => true | Some _ => false end && negb (String.eqb v "")
      then run.bind (run.Exec H "all" v) (fun _ => run.ret tt)
      else
        let (v, err) := GetString "type" in
        if match err with None => true | Some _ => false end && negb (String.eqb v "")
        then run.bind (run.Exec H "type" v) (fun _ => run.ret tt)
        else run.ret tt)
    (run.NewRunner H (Some Stdin) (Some Stderr) (Some Stdout)).

End cmd.

(** ** Notions the properties are stated with *)

Import run.

Definition isLower (c : ascii) : bool :=
  (97 <=? strings.byte c) && (strings.byte c <=? 122).

Definition upperByte (c : ascii) : ascii :=
  if isLower c then ascii_of_N (strings.byte c - 32) else c.

(** [s] is [name] with each letter in lower or in upper case. *)
Fixpoint isCasingOf (name s : string) : bool :=
  match name, s with
  | "", "" => true
  | String a name', String c s' =>
      (Ascii.eqb c a || Ascii.eqb c (upperByte a)) && isCasingOf name' s'
  | _, _ => false
  end.

(** All the casings of [name]. *)
Fixpoint casings (name : string) : list string :=
  match name with
  | "" => [""]
  | String a name' =>
      (map (String a) (casings name') ++ map (String (upperByte a)) (casings name'))%list
  end.

Fixpoint allLower (s : string) : bool :=
  match s with
  | "" => true
  | String c s' => isLower c && allLower s'
  end.

(** One of the match phrases of [ty] occurs in [info] as it is written. *)
Definition phraseHit (ty : commandType) (info : string) : bool :=
  match typesMatches !! ty with
  | Some v => anyWord info (MatchWords v)
  | None => false
  end.

(** A match phrase of [ty] is written in [line]: the line is some text,
    the phrase, and some text. *)
Definition phraseIn (ty : commandType) (line : string) : Prop :=
  exists m w a b,
    typesMatches !! ty = Some m /\ In w (MatchWords m) /\ line = a ++ w ++ b.

(** Matching without regard to the case of ASCII letters, the way the
    specification words it. *)
Definition lower (s : string) : string := strings.mapBytes strings.lowerByte s.

Definition ContainsFold (s substr : string) : bool :=
  strings.Contains (lower s) (lower substr).

Definition phraseHitFold (ty : commandType) (info : string) : bool :=
  match typesMatches !! ty with
  | Some v => existsb (ContainsFold info) (MatchWords v)
  | None => false
  end.

(** The classifier in the words of the specification: the first category,
    in the order of [types], whose name is the line or one of whose match
    phrases occurs in the line, both without regard to case; [unfound]
    when there is none. *)
Definition classifyFold (line : string) : commandType :=
  default TypeUnFound
    (find (fun c => String.eqb (lower line) (lower c) || phraseHitFold c line) types).

(** The mode [Exec] looks up in the handler table: a flag that starts with
    [-] goes through [short2Long] first. *)
Definition normalized (H : Host) (flag : string) : string :=
  if strings.HasPrefix flag "-" then short2Long H flag else flag.

(** What [check] leaves of the runner: the handler table is there. *)
Definition ensured (r : Runner) : Runner :=
  match flagHandlers r with
  | None => setFlagHandlers r createHandlers
  | Some _ => r
  end.

(** Calls that leave the runner as it is. *)
Definition keeps {A} (m : Go A) : Prop := forall r, after (m r) = r.

(** No event of the list is the start of a subprocess. *)
Definition noSpawn (t : list Event) : Prop := Forall (fun e => isSpawn e = false) t.

(** What the call did to the outside. *)
Definition events {A} (o : Outcome A * list Event) : list Event := o.2.

(** The subprocesses among the events. *)
Definition spawns (t : list Event) : list Event := List.filter isSpawn t.

(** The text of [s] before the first occurrence of [sep]; all of [s] when
    there is none. *)
Fixpoint before (sep s : string) : string :=
  match s with
  | "" => ""
  | String c s' => if strings.HasPrefix s sep then "" else String c (before sep s')
  end.

(** The first line of an output. *)
Definition firstLine (bytes : string) : string := before newline bytes.

(** The line [parsePath] takes the path from: the second line, or the
    first when there is no second. *)
Definition selectedLine (lines : list string) : option string :=
  lines !! (if (List.length lines <? 2)%nat then 0%nat else 1%nat).

(** The text [Exec] writes for the output [out]. *)
Definition rendered (out : string) : string :=
  if strings.HasSuffix out newline then out else out ++ newline.

(** The flag [cmd.Run] acts on: the first of [path], [all] and [type] that
    was read without error and is not empty. *)
Definition firstSupplied (GetString : string -> string * error) : option (string * string) :=
  find (fun mv => negb (String.eqb mv.2 ""))
    (omap (fun mode => match GetString mode with
                       | (v, None) => Some (mode, v)
                       | (_, Some _) => None
                       end) ["path"; "all"; "type"]).

(** The events of one write: nothing when the write fails. *)
Definition wrote (H : Host) (f : File) (text : string) : list Event :=
  if Writes H f then [Written f text] else [].

(** Where [print] and [println] write: the output file of the runner,
    standard output when it has none. *)
Definition outStream (r : Runner) : File := default Stdout (output r).

(** Where [errLog] writes: standard output when the runner has no output
    file, its error file otherwise; nowhere when that one is missing. *)
Definition errStream (r : Runner) : option File :=
  match output r with
  | None => Some Stdout
  | Some _ => err r
  end.

(** The error of [check] on a runner that is not bound. *)
Definition notBoundError : string := "miss init type built env:BUILTIN_TYPE_BIN".

(** ** The classifier *)

Lemma HasPrefix_spec prefix : forall s,
  strings.HasPrefix s prefix = true <-> exists b, s = prefix ++ b.
Proof.
  induction prefix as [|p prefix IH]; intros s; simpl.
  - split; [intros _; by exists s|by destruct s].
  - destruct s as [|c s]; simpl.
    + split; [done|]. intros [b Hb]. discriminate.
    + rewrite andb_true_iff, Ascii.eqb_eq, IH. split.
      * intros [-> [b ->]]. by exists b.
      * intros [b Hb]. injection Hb as -> ->. eauto.
Qed.

(** [strings.Contains] decides whether [substr] occurs in [s]. *)
Lemma Contains_spec substr : forall s,
  strings.Contains s substr = true <-> exists a b, s = a ++ substr ++ b.
Proof.
  induction s as [|c s IH].
  - change (strings.Contains "" substr)
      with (strings.HasPrefix "" substr || false).
    rewrite orb_false_r, HasPrefix_spec. split.
    + intros [b Hb]. by exists "", b.
    + intros ([|? a] & b & Hab); [|discriminate]. by exists b.
  - change (strings.Contains (String c s) substr)
      with (strings.HasPrefix (String c s) substr || strings.Contains s substr).
    rewrite orb_true_iff, HasPrefix_spec, IH. split.
    + intros [[b Hb]|(a & b & ->)]; [by exists "", b|by exists (String c a), b].
    + intros ([|c' a] & b & Hab); [left; by exists b|].
      right. injection Hab as -> ->. eauto.
Qed.

Lemma anyWord_spec info words :
  anyWord info words = true <->
  exists w, In w words /\ strings.Contains info w = true.
Proof.
  induction words as [|w words IH]; simpl.
  - split; [done|]. by intros (? & [] & _).
  - destruct (strings.Contains info w) eqn:Hw.
    + split; [|done]. intros _. exists w. auto.
    + rewrite IH. split.
      * intros (w' & Hin & Hc). exists w'. auto.
      * intros (w' & [<-|Hin] & Hc); [congruence|eauto].
Qed.

Section ClassifierFacts.
Variable U : Unicode.

Lemma Match_unfold ty info : Match U ty info = Eq U ty info || phraseHit ty info.
Proof. unfold Match, phraseHit. by destruct (Eq U ty info). Qed.

Lemma isCasingOf_casings name : forall s, isCasingOf name s = true -> In s (casings name).
Proof.
  induction name as [|a name IH]; intros [|c s]; simpl; try done.
  - auto.
  - intros [Hc Hs]%andb_prop. apply in_or_app.
    apply orb_prop in Hc as [Hc|Hc]; apply Ascii.eqb_eq in Hc; subst c;
      [left|right]; apply in_map; auto.
Qed.

Lemma casings_classified name :
  In name types ->
  forallb (fun s => String.eqb (getType U s) name) (casings name) = true.
Proof.
  intros Hin. repeat (destruct Hin as [<-|Hin]; [vm_compute; reflexivity|]).
  destruct Hin.
Qed.

(** The loop of [getType] stops at the first category that matches. *)
Lemma firstMatch_earliest info pre v post :
  Forall (fun w => Match U w info = false) pre ->
  Match U v info = true ->
  firstMatch U (pre ++ v :: post) info = v.
Proof.
  induction 1 as [|w pre Hw _ IH]; intros Hv; simpl.
  - by rewrite Hv.
  - rewrite Hw. by apply IH.
Qed.

(** The loop either stops at its first match or runs through the list. *)
Lemma firstMatch_cases info vs :
  (exists pre v post,
      vs = (pre ++ v :: post)%list /\
      Forall (fun w => Match U w info = false) pre /\
      Match U v info = true /\ firstMatch U vs info = v) \/
  (Forall (fun w => Match U w info = false) vs /\
   firstMatch U vs info = TypeUnFound).
Proof.
  induction vs as [|w vs IH]; simpl.
  - right. split; [constructor|done].
  - destruct (Match U w info) eqn:Hw.
    + left. exists [], w, vs. repeat split; auto.
    + destruct IH as [(pre & v & post & -> & Hpre & Hv & Heq)|[Hall Heq]].
      * left. exists (w :: pre), v, post. repeat split; auto.
      * right. split; [by constructor|done].
Qed.

(** C6. Each of the six category names, written as a line of its own in
    any casing of its letters, is classified as that category: for
    instance [BUILTIN] is [builtin]. *)
Theorem getType_category_name name s :
  In name types ->
  isCasingOf name s = true ->
  getType U s = name.
Proof.
  intros Hname Hs.
  pose proof (casings_classified name Hname) as Hall.
  rewrite forallb_forall in Hall.
  apply String.eqb_eq, Hall, isCasingOf_casings, Hs.
Qed.

(** On ASCII text [EqualFold] with a lower-case name holds of the casings
    of the name only. *)
Lemma foldEqByte_lower c a :
  isLower a = true -> strings.foldEqByte c a = true -> c = a \/ c = upperByte a.
Proof.
  unfold upperByte, isLower, strings.foldEqByte, strings.byte. intros Ha. rewrite Ha.
  apply andb_prop in Ha as [Ha1 Ha2]. apply N.leb_le in Ha1, Ha2.
  destruct (N.eqb_spec (N_of_ascii a) (N_of_ascii c)) as [Heq|Hne].
  - intros _. left. by rewrite <- (ascii_N_embedding c), <- Heq, ascii_N_embedding.
  - intros [[H1 H2]%andb_prop H3]%andb_prop.
    apply N.leb_le in H1, H2. apply N.eqb_eq in H3. right.
    assert (Hc : N_of_ascii a - 32 = N_of_ascii c) by lia.
    by rewrite Hc, ascii_N_embedding.
Qed.

Lemma EqualFold_casing name : forall s,
  allLower name = true ->
  strings.isASCII s = true ->
  strings.EqualFold U s name = true ->
  isCasingOf name s = true.
Proof.
  induction name as [|a name IH]; intros [|c s]; simpl; try done.
  intros [Ha Hname]%andb_prop [Hc Hs]%andb_prop.
  apply N.ltb_lt in Hc.
  assert (Hlow := Ha). unfold isLower in Hlow.
  apply andb_prop in Hlow as [_ Ha2]. apply N.leb_le in Ha2.
  unfold strings.RuneSelf in *.
  destruct (N.leb_spec 128 (strings.byte c)); [lia|].
  destruct (N.leb_spec 128 (strings.byte a)); [lia|]. simpl.
  intros [Hf Hrest]%andb_prop.
  rewrite (IH s Hname Hs Hrest), andb_true_r.
  destruct (foldEqByte_lower c a Ha Hf) as [->| ->].
  - by rewrite Ascii.eqb_refl.
  - by rewrite Ascii.eqb_refl, orb_true_r.
Qed.

(** No casing of a category name holds a match phrase of another
    category. *)
Lemma casings_foreign_phrases v c :
  In v types -> In c types -> v <> c ->
  forallb (fun s => negb (phraseHit c s)) (casings v) = true.
Proof.
  intros Hv Hc Hne.
  repeat (destruct Hv as [<-|Hv]; [
    repeat (destruct Hc as [<-|Hc]; [first [done|vm_compute; reflexivity]|]);
    destruct Hc|]).
  destruct Hv.
Qed.

(** For an ASCII line the first category with a phrase in the line is
    also the first category that matches it: a line that is a category
    name in some casing holds no phrase of another category. *)
Lemma earliest_phrase_earliest_match line pre c post :
  strings.isASCII line = true ->
  types = (pre ++ c :: post)%list ->
  phraseHit c line = true ->
  Forall (fun v => phraseHit v line = false) pre ->
  Forall (fun v => Match U v line = false) pre.
Proof.
  intros Hascii Htypes Hc Hpre.
  assert (Hnd : NoDup types) by (apply (bool_decide_unpack _); by vm_compute).
  rewrite Forall_forall in Hpre. apply Forall_forall. intros v Hv.
  rewrite Match_unfold, (Hpre v Hv), orb_false_r.
  destruct (Eq U v line) eqn:Heq; [exfalso|done].
  assert (Hvin : In v types).
  { rewrite Htypes. apply in_or_app. left. by apply list_elem_of_In. }
  assert (Hcin : In c types).
  { rewrite Htypes. apply in_or_app. right. by left. }
  assert (Hne : v <> c).
  { intros ->. rewrite Htypes in Hnd. apply NoDup_app in Hnd as (_ & Hnd & _).
    apply (Hnd c Hv). left. }
  assert (Hlow : allLower v = true).
  { clear -Hvin. repeat (destruct Hvin as [<-|Hvin]; [reflexivity|]). destruct Hvin. }
  pose proof (EqualFold_casing v line Hlow Hascii Heq) as Hcasing.
  pose proof (casings_foreign_phrases v c Hvin Hcin Hne) as Hall.
  rewrite forallb_forall in Hall.
  apply isCasingOf_casings, Hall in Hcasing. by rewrite Hc in Hcasing.
Qed.

Lemma getType_earliest_phrase line pre c post :
  strings.isASCII line = true ->
  types = (pre ++ c :: post)%list ->
  phraseHit c line = true ->
  Forall (fun v => phraseHit v line = false) pre ->
  getType U line = c.
Proof.
  intros Hascii Htypes Hc Hpre. unfold getType. rewrite Htypes.
  apply firstMatch_earliest.
  - by apply (earliest_phrase_earliest_match line pre c post).
  - rewrite Match_unfold, Hc. apply orb_true_r.
Qed.

(** [getType] returns one of the six categories. *)
Lemma getType_in_types info : In (getType U info) types.
Proof.
  unfold getType.
  destruct (firstMatch_cases info types)
    as [(pre & v & post & Htypes & _ & _ & ->)|[_ ->]].
  - rewrite Htypes. apply in_or_app. right. by left.
  - simpl. tauto.
Qed.

(** [phraseHit] decides [phraseIn]. *)
Lemma phraseHit_spec ty line : phraseHit ty line = true <-> phraseIn ty line.
Proof.
  unfold phraseHit, phraseIn. destruct (typesMatches !! ty) as [m|].
  - rewrite anyWord_spec. split.
    + intros (w & Hw & (a & b & ->)%Contains_spec). by exists m, w, a, b.
    + intros (m' & w & a & b & [= <-] & Hw & ->). exists w. split; [done|].
      apply Contains_spec. eauto.
  - split; [done|]. by intros (m & w & a & b & [=] & _).
Qed.

(** The first element of a filtered list is the first element of the
    list that passes. *)
Lemma filter_first {A} (p : A -> bool) l x rest :
  List.filter p l = x :: rest ->
  exists pre post, l = (pre ++ x :: post)%list /\
                   Forall (fun y => p y = false) pre /\ p x = true.
Proof.
  induction l as [|y l IH]; simpl; [done|].
  destruct (p y) eqn:Hy.
  - intros [= -> _]. by exists [], l.
  - intros (pre & post & -> & Hpre & Hx)%IH.
    exists (y :: pre), post. repeat split; [|done]. by constructor.
Qed.

(** A line in which [alias] is written is classified as [alias],
    whatever else it holds: nothing comes before the first category. *)
Lemma getType_alias_phrase line :
  phraseHit TypeAlias line = true -> getType U line = TypeAlias.
Proof.
  intros Hhit. unfold getType, types. simpl.
  by rewrite Match_unfold, Hhit, orb_true_r.
Qed.

(** C7, as amended. First match wins, over the match phrases as they are
    written: when the categories with a phrase written in an ASCII line
    are, in the fixed order, [c1], [c2] and possibly more, [getType]
    returns [c1], the earliest of them, and not [c2].  At
    [ll: aliased function wrapper] this gives [alias], not [function]. *)
Theorem getType_first_match_wins line c1 c2 rest :
  strings.isASCII line = true ->
  List.filter (fun v => phraseHit v line) types = c1 :: c2 :: rest ->
  getType U line = c1 /\ getType U line <> c2.
Proof.
  intros Hascii Hfilter.
  destruct (filter_first _ _ _ _ Hfilter) as (pre & post & Htypes & Hpre & H1).
  assert (Hg : getType U line = c1)
    by apply (getType_earliest_phrase line pre c1 post Hascii Htypes H1 Hpre).
  split; [done|]. rewrite Hg. intros <-.
  assert (Hnd : List.NoDup (List.filter (fun v => phraseHit v line) types)).
  { apply List.NoDup_filter. apply NoDup_ListNoDup.
    apply (bool_decide_unpack _). by vm_compute. }
  rewrite Hfilter in Hnd. apply List.NoDup_cons_iff in Hnd as [Hnotin _].
  apply Hnotin. by left.
Qed.

(** C1, as amended. Match phrases are looked for as they are written, in
    lower case; only the comparison of the whole line with a category
    name ignores case.  For every ASCII line in which a match phrase of a
    category is written, [getType] returns the first category of the
    fixed order that has one of its phrases written in the line. *)
Theorem getType_phrase_as_written line c :
  strings.isASCII line = true ->
  In c types ->
  phraseIn c line ->
  exists pre post,
    types = (pre ++ getType U line :: post)%list /\
    phraseIn (getType U line) line /\
    forall v, In v pre -> ~ phraseIn v line.
Proof.
  intros Hascii Hc Hin%phraseHit_spec.
  destruct (find (fun v => phraseHit v line) types) as [c'|] eqn:Hfind.
  - assert (Hsplit : exists pre post,
               types = (pre ++ c' :: post)%list /\
               Forall (fun v => phraseHit v line = false) pre /\
               phraseHit c' line = true).
    { clear -Hfind. revert Hfind. generalize types.
      induction l as [|y l IH]; simpl; [done|].
      destruct (phraseHit y line) eqn:Hy.
      - intros [= ->]. by exists [], l.
      - intros (pre & post & -> & Hpre & Hx)%IH.
        exists (y :: pre), post. repeat split; [|done]. by constructor. }
    destruct Hsplit as (pre & post & Htypes & Hpre & Hc').
    rewrite (getType_earliest_phrase line pre c' post Hascii Htypes Hc' Hpre).
    exists pre, post. split; [done|]. split; [by apply phraseHit_spec|].
    intros v Hv Hphrase%phraseHit_spec. rewrite Forall_forall in Hpre.
    apply list_elem_of_In, Hpre in Hv. congruence.
  - exfalso. apply (find_none _ _ Hfind) in Hc. simpl in Hc. congruence.
Qed.

End ClassifierFacts.

Lemma getType_category_name_witness :
  In TypeBuiltin types /\ isCasingOf TypeBuiltin "BUILTIN" = true /\
  getType asciiOnly "BUILTIN" = TypeBuiltin.
Proof.
  assert (Hin : In TypeBuiltin types) by (simpl; tauto).
  assert (Hc : isCasingOf TypeBuiltin "BUILTIN" = true) by reflexivity.
  exact (conj Hin (conj Hc (getType_category_name asciiOnly TypeBuiltin "BUILTIN" Hin Hc))).
Defined.

Lemma getType_first_match_wins_witness :
  strings.isASCII "ll: aliased function wrapper" = true /\
  List.filter (fun v => phraseHit v "ll: aliased function wrapper") types
    = [TypeAlias; TypeFunction] /\
  getType asciiOnly "ll: aliased function wrapper" = TypeAlias /\
  getType asciiOnly "ll: aliased function wrapper" <> TypeFunction.
Proof.
  assert (Hs : strings.isASCII "ll: aliased function wrapper" = true) by reflexivity.
  assert (Hf : List.filter (fun v => phraseHit v "ll: aliased function wrapper") types
               = [TypeAlias; TypeFunction]) by reflexivity.
  split; [exact Hs|]. split; [exact Hf|].
  exact (getType_first_match_wins asciiOnly "ll: aliased function wrapper"
           TypeAlias TypeFunction [] Hs Hf).
Defined.

(** C7, as stated, fails where a phrase is in another casing: in
    [ll: ALIASED function wrapper] the phrases of [alias] and of
    [function] both occur without regard to case, and [alias] is the
    earlier; [getType] does not see [ALIAS] and returns [function]. *)
Lemma getType_first_match_casing_counterexample :
  phraseHitFold TypeAlias "ll: ALIASED function wrapper" = true /\
  phraseHitFold TypeFunction "ll: ALIASED function wrapper" = true /\
  classifyFold "ll: ALIASED function wrapper" = TypeAlias /\
  (forall U, getType U "ll: ALIASED function wrapper" = TypeFunction) /\
  TypeFunction <> TypeAlias.
Proof.
  split; [reflexivity|]. split; [reflexivity|]. split; [reflexivity|].
  split; [intros U; vm_compute; reflexivity|discriminate].
Qed.

Lemma getType_phrase_as_written_witness :
  strings.isASCII "ls is aliased to ls -G" = true /\
  In TypeAlias types /\
  phraseIn TypeAlias "ls is aliased to ls -G" /\
  exists pre post,
    types = (pre ++ getType asciiOnly "ls is aliased to ls -G" :: post)%list /\
    phraseIn (getType asciiOnly "ls is aliased to ls -G") "ls is aliased to ls -G" /\
    forall v, In v pre -> ~ phraseIn v "ls is aliased to ls -G".
Proof.
  assert (Hs : strings.isASCII "ls is aliased to ls -G" = true) by reflexivity.
  assert (Hc : In TypeAlias types) by (simpl; tauto).
  assert (Hp : phraseIn TypeAlias "ls is aliased to ls -G").
  { exists {| T := TypeAlias; MatchWords := ["alias"] |}, "alias", "ls is ", "ed to ls -G".
    split; [reflexivity|]. split; [simpl; tauto|reflexivity]. }
  split; [exact Hs|]. split; [exact Hc|]. split; [exact Hp|].
  exact (getType_phrase_as_written asciiOnly "ls is aliased to ls -G" TypeAlias Hs Hc Hp).
Defined.

(** C1, as stated, fails: [ALIASED] holds the phrase of [alias] in upper
    case and [Shell Builtin] that of [builtin] with capitals, so that
    matching without regard to case classifies them as [alias] and
    [builtin]; [getType] finds no phrase in them and returns [unfound]. *)
Lemma getType_phrase_casing_counterexample :
  classifyFold "ALIASED" = TypeAlias /\
  classifyFold "Shell Builtin" = TypeBuiltin /\
  (forall U, getType U "ALIASED" = TypeUnFound) /\
  (forall U, getType U "Shell Builtin" = TypeUnFound).
Proof. repeat split; intros; vm_compute; reflexivity. Qed.

(** ** The runner *)

Section RunnerFacts.
Variable H : Host.

(** Running [bind] when the first call returns. *)
Lemma bind_run {A B} (m : Go A) (k : A -> Go B) r a r' t o t' l :
  m r = (Returned a r', t) ->
  k a r' = (o, t') ->
  l = (t ++ t')%list ->
  bind m k r = (o, l).
Proof. unfold bind. by intros -> -> ->. Qed.

Lemma after_bind {A B} (m : Go A) (k : A -> Go B) r a r' t :
  m r = (Returned a r', t) -> after (bind m k r) = after (k a r').
Proof. unfold bind. intros ->. by destruct (k a r'). Qed.

Lemma check_run r :
  check r =
  (Returned (if String.eqb (bin r) "" then Some ("miss init type built env:" ++ builtInType)
             else None) (ensured r), []).
Proof.
  unfold check, ensured.
  destruct r as [b e o i [hs|]]; simpl; unfold bind, this, store, ret; simpl;
    by destruct (String.eqb b "").
Qed.

Lemma keeps_ret {A} (a : A) : keeps (ret a).
Proof. by intros r. Qed.

Lemma keeps_this : keeps this.
Proof. by intros r. Qed.

Lemma keeps_emit e : keeps (emit e).
Proof. by intros r. Qed.

Lemma keeps_panic {A} msg : keeps (@panic A msg).
Proof. by intros r. Qed.

Lemma keeps_bind {A B} (m : Go A) (k : A -> Go B) :
  keeps m -> (forall a, keeps (k a)) -> keeps (bind m k).
Proof.
  intros Hm Hk r. specialize (Hm r). unfold bind.
  destruct (m r) as [[a r'|msg r'] t]; simpl in Hm; subst r'; [|done].
  specialize (Hk a r). by destruct (k a r) as [[? ?|? ?] ?].
Qed.

Lemma keeps_index l i : keeps (index l i).
Proof. unfold index. destruct (l !! i); [apply keeps_ret|apply keeps_panic]. Qed.

Lemma keeps_Fwrite f text : keeps (Fwrite H f text).
Proof.
  unfold Fwrite. destruct f as [f|]; [|apply keeps_ret].
  destruct (Writes H f); [|apply keeps_ret].
  apply keeps_bind; [apply keeps_emit|intros; apply keeps_ret].
Qed.

Local Ltac keeps_steps :=
  repeat first
    [ apply keeps_ret | apply keeps_this | apply keeps_emit | apply keeps_panic
    | apply keeps_index | apply keeps_Fwrite
    | apply keeps_bind; [|intros ?]
    | match goal with
      | |- keeps (match ?x with _ => _ end) => destruct x
      | |- keeps (let (_, _) := ?x in _) => destruct x
      end ].

Lemma keeps_print args : keeps (print H args).
Proof. unfold print. keeps_steps. Qed.

Lemma keeps_println args : keeps (println H args).
Proof. unfold println. keeps_steps. Qed.

Lemma keeps_errLog args : keeps (errLog H args).
Proof. unfold errLog. keeps_steps. Qed.

Lemma keeps_commandOutput args : keeps (commandOutput H args).
Proof. unfold commandOutput. keeps_steps. Qed.

Lemma keeps_parseType cmd : keeps (parseType H cmd).
Proof. unfold parseType. apply keeps_bind; [apply keeps_commandOutput|]. intros [? ?]. keeps_steps. Qed.

Lemma keeps_parseAll cmd : keeps (parseAll H cmd).
Proof. unfold parseAll. apply keeps_bind; [apply keeps_commandOutput|]. intros [? ?]. keeps_steps. Qed.

Lemma keeps_parsePath cmd : keeps (parsePath H cmd).
Proof. unfold parsePath. apply keeps_bind; [apply keeps_commandOutput|]. intros [? ?]. keeps_steps. Qed.

Lemma keeps_call fn cmd : keeps (call H fn cmd).
Proof.
  destruct fn; [apply keeps_parseType|apply keeps_parseAll|apply keeps_parsePath].
Qed.

(** After [Exec] the runner is the one [check] left, also when a handler
    panics. *)
Lemma after_Exec flag cmd r : after (Exec H flag cmd r) = ensured r.
Proof.
  unfold Exec. rewrite (after_bind _ _ _ _ _ _ (check_run r)).
  generalize (ensured r).
  match goal with |- forall r, after (?m r) = r => change (keeps m) end.
  destruct (String.eqb (bin r) "").
  - apply keeps_bind; [apply keeps_errLog|intros; apply keeps_ret].
  - destruct (String.eqb cmd ""); [apply keeps_ret|].
    apply keeps_bind; [apply keeps_this|intros r1].
    apply keeps_bind.
    + destruct (_ !! _); [|apply keeps_ret].
      apply keeps_bind; [apply keeps_call|intros [? ?]; apply keeps_ret].
    + intros rs. apply keeps_bind; [|intros; apply keeps_ret].
      destruct (strings.HasSuffix _ _); [apply keeps_print|apply keeps_println].
Qed.

(** [Bind] never touches the handler table and never panics. *)
Lemma Bind_run bin r :
  exists r' t,
    Bind H bin r = (Returned tt r', t) /\
    flagHandlers r' = flagHandlers r /\
    noSpawn t.
Proof.
  unfold noSpawn.
  assert (Hlog : forall args, exists t,
             (let* _ := errLog H args in ret tt) r = (Returned tt r, t) /\
             Forall (fun e => isSpawn e = false) t).
  { intros args. unfold errLog, bind, this, ret. simpl.
    destruct (output r) as [fo|]; simpl.
    - unfold Fwrite. destruct (err r) as [f|]; simpl; [|by eexists].
      destruct (Writes H f); simpl; [|by eexists].
      eexists. split; [done|]. by repeat constructor.
    - destruct (Writes H Stdout); simpl; [|by eexists].
      eexists. split; [done|]. by repeat constructor. }
  unfold Bind. destruct (String.eqb bin ""); [by exists r, []|].
  destruct (negb (IsAbs bin)); [|by exists r, []].
  destruct (Abs H bin) as [p [msg|]].
  - destruct (Hlog ["ERROR:"; msg]) as (t & -> & Ht). by exists r, t.
  - destruct (Stat H p) as [msg|].
    + destruct (Hlog ["ERROR:"; msg]) as (t & -> & Ht). by exists r, t.
    + exists (setBin r p), []. by repeat split.
Qed.

(** The handler table of a runner is missing or the one of
    [createHandlers]. *)
Lemma reachable_handlers r :
  reachable H r ->
  flagHandlers r = None \/ flagHandlers r = Some createHandlers.
Proof.
  induction 1 as [|e i o|r e i o _ IH|r p _ IH|r flag cmd _ IH].
  - by left.
  - by right.
  - exact IH.
  - destruct (Bind_run p r) as (r' & t & -> & Hhs & _). simpl. by rewrite Hhs.
  - rewrite after_Exec. unfold ensured.
    destruct IH as [Hhs|Hhs]; rewrite Hhs; simpl; auto.
Qed.

Lemma ensured_handlers r :
  reachable H r -> flagHandlers (ensured r) = Some createHandlers.
Proof.
  intros [Hr|Hr]%reachable_handlers; unfold ensured; rewrite Hr; [done|].
  by rewrite Hr.
Qed.

Lemma ensured_bin r : bin (ensured r) = bin r.
Proof. unfold ensured. by destruct (flagHandlers r). Qed.

(** Writing the output text of a result: no subprocess, no panic. *)
Lemma render_run out r :
  exists n t,
    (if strings.HasSuffix out newline then print H [out] else println H [out]) r
    = (Returned n r, t) /\
    noSpawn t.
Proof.
  unfold noSpawn.
  destruct (strings.HasSuffix out newline); unfold print, println, bind at 1, this;
    destruct (output r) as [f|]; simpl.
  all: unfold bind, emit, ret; destruct (Writes H _); simpl.
  all: do 2 eexists; (split; [reflexivity|]); by repeat constructor.
Qed.

(** The part of [Exec] after [check] and the test of the command name,
    when the table has a handler for the mode. *)
Lemma Exec_handler flag cmd r fn out err t :
  reachable H r -> bound r -> cmd <> "" ->
  createHandlers !! (if strings.HasPrefix flag "-" then short2Long H flag else flag)
    = Some fn ->
  call H fn cmd (ensured r) = (Returned (out, err) (ensured r), t) ->
  exists t',
    Exec H flag cmd r =
    (Returned {| Result.output := out; Result.err := err |} (ensured r), (t ++ t')%list) /\
    noSpawn t'.
Proof.
  intros Hr Hb Hcmd Hfn Hcall.
  destruct (render_run out (ensured r)) as (n & t' & Hrender & Ht').
  exists t'. split; [|done].
  apply String.eqb_neq in Hb, Hcmd.
  unfold Exec. eapply bind_run; [apply check_run| |reflexivity].
  rewrite Hb, Hcmd.
  eapply bind_run; [reflexivity| |reflexivity].
  rewrite (ensured_handlers r Hr). simpl default. rewrite Hfn.
  eapply bind_run.
  - eapply bind_run; [exact Hcall|reflexivity|reflexivity].
  - eapply bind_run; [exact Hrender|reflexivity|reflexivity].
  - simpl. by rewrite !app_nil_r.
Qed.

Lemma commandOutput_run args r :
  commandOutput H args r = (Returned (Output H (bin r) args) r, [Spawn (bin r) args]).
Proof. reflexivity. Qed.

(** A runner of [NewRunner] is bound: to the value of the environment, or
    to [/usr/bin/type] when the environment has none. *)
Lemma NewRunner_bound err input output : bound (NewRunner H err input output).
Proof.
  unfold bound, NewRunner, init, GetEnvOr. simpl.
  destruct (String.eqb_spec (Getenv H builtInType) ""); [discriminate|done].
Qed.

(** What [Bind] does with a relative path: the absolute form of an
    existing file is bound; a path that cannot be made absolute or names
    no file leaves the binding and is reported through [errLog]. *)
Lemma Bind_relative_existing bin r p :
  bin <> "" -> IsAbs bin = false ->
  Abs H bin = (p, None) -> Stat H p = None ->
  Bind H bin r = (Returned tt (setBin r p), []).
Proof.
  intros Hbin%String.eqb_neq Habs Hp Hstat.
  unfold Bind. by rewrite Hbin, Habs, Hp, Hstat.
Qed.

Lemma Bind_relative_missing bin r p msg o f :
  bin <> "" -> IsAbs bin = false ->
  Abs H bin = (p, None) -> Stat H p = Some msg ->
  output r = Some o -> err r = Some f -> Writes H f = true ->
  Bind H bin r = (Returned tt r, [Written f ("ERROR: " ++ msg ++ newline)]).
Proof.
  intros Hbin%String.eqb_neq Habs Hp Hstat Ho He Hw.
  unfold Bind. rewrite Hbin, Habs, Hp, Hstat. simpl.
  unfold errLog, bind, this, Fwrite. simpl. by rewrite Ho, He, Hw.
Qed.

(** An absolute path goes past both the test and the assignment. *)
Lemma Bind_absolute bin r : IsAbs bin = true -> Bind H bin r = (Returned tt r, []).
Proof. intros Habs. unfold Bind. rewrite Habs. by destruct (String.eqb bin ""). Qed.

Lemma splitLoop_nonempty sep : forall s skip cur,
  exists piece rest, strings.splitLoop sep s skip cur = piece :: rest.
Proof.
  induction s as [|c s IH]; intros skip cur; simpl; [eauto|].
  destruct skip; [|apply IH].
  match goal with |- context [if ?b then _ else _] => destruct b end;
    [eauto|apply IH].
Qed.

(** Type mode always returns, with the name of one of the six categories
    and no error. *)
Lemma parseType_returns cmd r :
  exists ty,
    In ty types /\
    parseType H cmd r = (Returned (String_ ty, None) r, [Spawn (bin r) ["-a"; cmd]]).
Proof.
  assert (Hun : In TypeUnFound types) by (simpl; tauto).
  unfold parseType.
  destruct (Output H (bin r) ["-a"; cmd]) as [bytes e] eqn:Hout.
  destruct e as [msg|].
  - exists TypeUnFound. split; [done|].
    eapply bind_run; [apply commandOutput_run| |reflexivity]. by rewrite Hout.
  - destruct (String.length bytes <=? 0)%nat eqn:Hlen.
    + exists TypeUnFound. split; [done|].
      eapply bind_run; [apply commandOutput_run| |reflexivity]. by rewrite Hout, Hlen.
    + destruct (splitLoop_nonempty newline bytes O "") as (line & rest & Hsplit).
      exists (getType (unicode H) line). split; [apply getType_in_types|].
      eapply bind_run; [apply commandOutput_run| |reflexivity].
      rewrite Hout, Hlen.
      change (strings.Split (unicode H) bytes newline)
        with (strings.splitLoop newline bytes O "").
      by rewrite Hsplit.
Qed.

(** C8. With the lookup binary bound, [Exec] with an empty command name
    does nothing, whatever the mode: it returns the empty result, without
    error and without output text, and neither writes to any stream nor
    starts a subprocess. *)
Theorem Exec_empty_command flag r :
  bound r ->
  Exec H flag "" r =
  (Returned {| Result.output := ""; Result.err := None |} (ensured r), []).
Proof.
  intros Hb%String.eqb_neq. unfold Exec.
  eapply bind_run; [apply check_run| |reflexivity]. by rewrite Hb.
Qed.

(** C2, as amended. In path mode a lookup that fails (the subprocess does
    not start or exits with an error) is absorbed without an error into
    the text [<cmd> not found]: with the lookup binary bound and a command
    name that is not empty, [Exec "path" cmd] starts the lookup once,
    returns that text as output with no error, and then only writes. *)
Theorem Exec_path_lookup_failure cmd r out msg :
  reachable H r -> bound r -> cmd <> "" ->
  Output H (bin r) ["-a"; cmd] = (out, Some msg) ->
  exists t,
    Exec H "path" cmd r =
    (Returned {| Result.output := cmd ++ " not found"; Result.err := None |}
       (ensured r), Spawn (bin r) ["-a"; cmd] :: t) /\
    noSpawn t.
Proof.
  intros Hr Hb Hcmd Hout.
  destruct (Exec_handler "path" cmd r fnParsePath (cmd ++ " not found") None
              [Spawn (bin r) ["-a"; cmd]]) as (t & Heq & Ht); try done.
  - simpl call. unfold parsePath.
    eapply bind_run; [apply commandOutput_run| |].
    + by rewrite ensured_bin, Hout.
    + by rewrite ensured_bin.
  - by exists t.
Qed.

(** C5, as amended. In all mode a lookup that does not start or exits
    with an error yields the text [<cmd> not found]; a lookup that
    succeeds yields its output as it is, also when that output is empty.
    Neither case is an error. *)
Theorem Exec_all_lookup cmd r out err :
  reachable H r -> bound r -> cmd <> "" ->
  Output H (bin r) ["-a"; cmd] = (out, err) ->
  exists t,
    Exec H "all" cmd r =
    (Returned
       {| Result.output := match err with
                           | Some _ => cmd ++ " not found"
                           | None => out
                           end;
          Result.err := None |}
       (ensured r), Spawn (bin r) ["-a"; cmd] :: t) /\
    noSpawn t.
Proof.
  intros Hr Hb Hcmd Hout.
  destruct (Exec_handler "all" cmd r fnParseAll
              (match err with Some _ => cmd ++ " not found" | None => out end) None
              [Spawn (bin r) ["-a"; cmd]]) as (t & Heq & Ht); try done.
  - simpl call. unfold parseAll.
    eapply bind_run; [apply commandOutput_run| |].
    + rewrite ensured_bin, Hout. by destruct err.
    + by rewrite ensured_bin.
  - by exists t.
Qed.

Lemma Contains_app_r a s substr :
  strings.Contains s substr = true -> strings.Contains (a ++ s) substr = true.
Proof.
  rewrite !Contains_spec. intros (x & y & ->). exists (a ++ x), y.
  induction a as [|c a IH]; [done|].
  change (String c (a ++ x ++ substr ++ y) = String c ((a ++ x) ++ substr ++ y)).
  by f_equal.
Qed.

(** C9. With the lookup binary bound and a command name that is not
    empty, a mode that after the translation of short flags is none of
    [type], [all] and [path] makes [Exec] return an error result whose
    message holds [flag undefined], with no output text, and no subprocess
    is started. *)
Theorem Exec_undefined_flag flag cmd r :
  reachable H r -> bound r -> cmd <> "" ->
  normalized H flag <> "type" ->
  normalized H flag <> "all" ->
  normalized H flag <> "path" ->
  exists t,
    Exec H flag cmd r =
    (Returned
       {| Result.output := "";
          Result.err := Some (normalized H flag ++ ":flag undefined ") |}
       (ensured r), t) /\
    strings.Contains (normalized H flag ++ ":flag undefined ") "flag undefined" = true /\
    noSpawn t.
Proof.
  intros Hr Hb Hcmd Htype Hall Hpath.
  destruct (render_run "" (ensured r)) as (n & t & Hrender & Ht).
  exists t. split; [|split; [|done]].
  - apply String.eqb_neq in Hb, Hcmd.
    unfold Exec. eapply bind_run; [apply check_run| |reflexivity].
    rewrite Hb, Hcmd.
    eapply bind_run; [reflexivity| |reflexivity].
    rewrite (ensured_handlers r Hr). simpl default.
    fold (normalized H flag).
    assert (Hnone : createHandlers !! normalized H flag = None).
    { unfold createHandlers. by rewrite !lookup_insert_ne, lookup_empty. }
    rewrite Hnone.
    eapply bind_run; [reflexivity| |reflexivity].
    eapply bind_run; [exact Hrender|reflexivity|]. by rewrite app_nil_r.
  - by apply Contains_app_r.
Qed.

(** C10. The translation of short flags ignores case: [-T], [-A] and [-P]
    go to [type], [all] and [path] as [-t], [-a] and [-p] do, and [Exec]
    with any of them is [Exec] with the long mode, for every command name
    and every runner. *)
Theorem Exec_short_flag_case cmd r :
  (short2Long H "-t" = "type" /\ short2Long H "-T" = "type" /\
   short2Long H "-a" = "all" /\ short2Long H "-A" = "all" /\
   short2Long H "-p" = "path" /\ short2Long H "-P" = "path") /\
  Exec H "-t" cmd r = Exec H "type" cmd r /\
  Exec H "-T" cmd r = Exec H "type" cmd r /\
  Exec H "-a" cmd r = Exec H "all" cmd r /\
  Exec H "-A" cmd r = Exec H "all" cmd r /\
  Exec H "-p" cmd r = Exec H "path" cmd r /\
  Exec H "-P" cmd r = Exec H "path" cmd r.
Proof.
  assert (Ht : short2Long H "-t" = "type") by reflexivity.
  assert (HT : short2Long H "-T" = "type") by reflexivity.
  assert (Ha : short2Long H "-a" = "all") by reflexivity.
  assert (HA : short2Long H "-A" = "all") by reflexivity.
  assert (Hp : short2Long H "-p" = "path") by reflexivity.
  assert (HP : short2Long H "-P" = "path") by reflexivity.
  split; [done|].
  unfold Exec.
  change (strings.HasPrefix "-t" "-") with true.
  change (strings.HasPrefix "-T" "-") with true.
  change (strings.HasPrefix "-a" "-") with true.
  change (strings.HasPrefix "-A" "-") with true.
  change (strings.HasPrefix "-p" "-") with true.
  change (strings.HasPrefix "-P" "-") with true.
  change (strings.HasPrefix "type" "-") with false.
  change (strings.HasPrefix "all" "-") with false.
  change (strings.HasPrefix "path" "-") with false.
  cbv iota. by rewrite Ht, HT, Ha, HA, Hp, HP.
Qed.

End RunnerFacts.

(** ** Concrete runs *)

Lemma Exec_empty_command_witness :
  bound (rootRunner (machine "" None)) /\
  Exec (machine "" None) "type" "" (rootRunner (machine "" None)) =
  (Returned {| Result.output := ""; Result.err := None |}
     (ensured (rootRunner (machine "" None))), []).
Proof.
  assert (Hb : bound (rootRunner (machine "" None))) by (vm_compute; discriminate).
  exact (conj Hb (Exec_empty_command (machine "" None) "type" _ Hb)).
Defined.

Lemma Exec_path_lookup_failure_witness :
  reachable (machine "" (Some "exit status 1"))
    (rootRunner (machine "" (Some "exit status 1"))) /\
  bound (rootRunner (machine "" (Some "exit status 1"))) /\
  "ls" <> "" /\
  Output (machine "" (Some "exit status 1")) "/usr/bin/type" ["-a"; "ls"]
    = ("", Some "exit status 1") /\
  exists t,
    Exec (machine "" (Some "exit status 1")) "path" "ls"
      (rootRunner (machine "" (Some "exit status 1"))) =
    (Returned {| Result.output := "ls not found"; Result.err := None |}
       (ensured (rootRunner (machine "" (Some "exit status 1")))),
     Spawn "/usr/bin/type" ["-a"; "ls"] :: t) /\
    noSpawn t.
Proof.
  assert (Hr : reachable (machine "" (Some "exit status 1"))
                 (rootRunner (machine "" (Some "exit status 1"))))
    by apply reach_NewRunner.
  assert (Hb : bound (rootRunner (machine "" (Some "exit status 1"))))
    by (vm_compute; discriminate).
  assert (Hcmd : "ls" <> "") by discriminate.
  repeat split; try done.
  exact (Exec_path_lookup_failure (machine "" (Some "exit status 1")) "ls" _
           "" "exit status 1" Hr Hb Hcmd eq_refl).
Defined.

(** C2, as stated, fails: when the lookup of [ls] exits with an error,
    path mode returns the text [ls not found], not the empty string. *)
Lemma Exec_path_lookup_failure_counterexample :
  Output (machine "" (Some "exit status 1")) "/usr/bin/type" ["-a"; "ls"]
    = ("", Some "exit status 1") /\
  returned (Exec (machine "" (Some "exit status 1")) "path" "ls"
              (rootRunner (machine "" (Some "exit status 1"))))
    = Some {| Result.output := "ls not found"; Result.err := None |} /\
  returned (Exec (machine "" (Some "exit status 1")) "path" "ls"
              (rootRunner (machine "" (Some "exit status 1"))))
    <> Some {| Result.output := ""; Result.err := None |}.
Proof.
  split; [reflexivity|].
  split; [vm_compute; reflexivity|vm_compute; discriminate].
Qed.

Lemma Exec_all_lookup_witness :
  reachable (machine "" None) (rootRunner (machine "" None)) /\
  bound (rootRunner (machine "" None)) /\
  "ls" <> "" /\
  Output (machine "" None) "/usr/bin/type" ["-a"; "ls"] = ("", None) /\
  exists t,
    Exec (machine "" None) "all" "ls" (rootRunner (machine "" None)) =
    (Returned {| Result.output := ""; Result.err := None |}
       (ensured (rootRunner (machine "" None))),
     Spawn "/usr/bin/type" ["-a"; "ls"] :: t) /\
    noSpawn t.
Proof.
  assert (Hr : reachable (machine "" None) (rootRunner (machine "" None)))
    by apply reach_NewRunner.
  assert (Hb : bound (rootRunner (machine "" None))) by (vm_compute; discriminate).
  assert (Hcmd : "ls" <> "") by discriminate.
  repeat split; try done.
  exact (Exec_all_lookup (machine "" None) "ls" _ "" None Hr Hb Hcmd eq_refl).
Defined.

(** C5, as stated, fails: a lookup of [ls] that succeeds and prints
    nothing makes all mode return the empty string, not [ls not found]. *)
Lemma Exec_all_empty_output_counterexample :
  Output (machine "" None) "/usr/bin/type" ["-a"; "ls"] = ("", None) /\
  returned (Exec (machine "" None) "all" "ls" (rootRunner (machine "" None)))
    = Some {| Result.output := ""; Result.err := None |} /\
  returned (Exec (machine "" None) "all" "ls" (rootRunner (machine "" None)))
    <> Some {| Result.output := "ls not found"; Result.err := None |}.
Proof.
  split; [reflexivity|].
  split; [vm_compute; reflexivity|vm_compute; discriminate].
Qed.

Lemma Exec_undefined_flag_witness :
  reachable (machine "" None) (rootRunner (machine "" None)) /\
  bound (rootRunner (machine "" None)) /\
  "ls" <> "" /\
  normalized (machine "" None) "unknown_flag" <> "type" /\
  normalized (machine "" None) "unknown_flag" <> "all" /\
  normalized (machine "" None) "unknown_flag" <> "path" /\
  exists t,
    Exec (machine "" None) "unknown_flag" "ls" (rootRunner (machine "" None)) =
    (Returned
       {| Result.output := "";
          Result.err :=
            Some (normalized (machine "" None) "unknown_flag" ++ ":flag undefined ") |}
       (ensured (rootRunner (machine "" None))), t) /\
    strings.Contains
      (normalized (machine "" None) "unknown_flag" ++ ":flag undefined ")
      "flag undefined" = true /\
    noSpawn t.
Proof.
  assert (Hr : reachable (machine "" None) (rootRunner (machine "" None)))
    by apply reach_NewRunner.
  assert (Hb : bound (rootRunner (machine "" None))) by (vm_compute; discriminate).
  assert (Hcmd : "ls" <> "") by discriminate.
  assert (H1 : normalized (machine "" None) "unknown_flag" <> "type")
    by (vm_compute; discriminate).
  assert (H2 : normalized (machine "" None) "unknown_flag" <> "all")
    by (vm_compute; discriminate).
  assert (H3 : normalized (machine "" None) "unknown_flag" <> "path")
    by (vm_compute; discriminate).
  repeat split; try done.
  exact (Exec_undefined_flag (machine "" None) "unknown_flag" "ls" _ Hr Hb Hcmd H1 H2 H3).
Defined.

(** C3. [Bind] leaves an absolute path alone.  On a machine where
    [/bin/sh] exists, binding [/bin/sh] on a runner bound to
    [/usr/bin/type] changes nothing, although the path is absolute and
    names an existing file; binding the absolute path [/nonexistent],
    which names no file, changes nothing either and writes no message. *)
Theorem Bind_absolute_path_ignored :
  IsAbs "/bin/sh" = true /\
  Stat (machine "" None) "/bin/sh" = None /\
  bin (rootRunner (machine "" None)) = "/usr/bin/type" /\
  Bind (machine "" None) "/bin/sh" (rootRunner (machine "" None))
    = (Returned tt (rootRunner (machine "" None)), []) /\
  Stat (machine "" None) "/nonexistent" <> None /\
  Bind (machine "" None) "/nonexistent" (rootRunner (machine "" None))
    = (Returned tt (rootRunner (machine "" None)), []).
Proof. repeat split; vm_compute; done. Qed.

(** A relative path goes the way the property describes: [mytype] is
    bound as [/work/mytype], and [nothere], which names no file, leaves
    the binding and is reported on the error file of the runner. *)
Example Bind_relative_path :
  after (Bind (machine "" None) "mytype" (rootRunner (machine "" None)))
    = setBin (rootRunner (machine "" None)) "/work/mytype" /\
  Bind (machine "" None) "nothere" (rootRunner (machine "" None))
    = (Returned tt (rootRunner (machine "" None)),
       [Written Stdin
          ("ERROR: stat /work/nothere: no such file or directory" ++ newline)]).
Proof. split; vm_compute; reflexivity. Qed.

(** C4. [parsePath] indexes the pieces of the selected line without a
    check.  A lookup that prints the one word [file] is classified as
    [file], the line has no [is] to split on, and [paths[1]] is out of
    range; a lookup that prints the one line [ls is /bin/ls] with its
    newline selects the empty second line, with the same outcome.  The
    panic goes through [Exec]. *)
Theorem parsePath_index_out_of_range :
  getType asciiOnly "file" = TypeFile /\
  strings.Split asciiOnly "file" "is" = ["file"] /\
  parsePath (machine "file" None) "ls" (rootRunner (machine "file" None))
    = (Panicked "runtime error: index out of range" (rootRunner (machine "file" None)),
       [Spawn "/usr/bin/type" ["-a"; "ls"]]) /\
  strings.Split asciiOnly ("ls is /bin/ls" ++ newline) newline = ["ls is /bin/ls"; ""] /\
  parsePath (machine ("ls is /bin/ls" ++ newline) None) "ls"
      (rootRunner (machine "file" None))
    = (Panicked "runtime error: index out of range" (rootRunner (machine "file" None)),
       [Spawn "/usr/bin/type" ["-a"; "ls"]]) /\
  returned (Exec (machine "file" None) "path" "ls" (rootRunner (machine "file" None)))
    = None.
Proof. repeat split; vm_compute; reflexivity. Qed.

(** ** Further properties of the classifier *)

Section ClassifierMore.
Variable U : Unicode.

Lemma casing_foldEqByte c a :
  isLower a = true -> (c = a \/ c = upperByte a) ->
  strings.foldEqByte c a = true /\ (strings.byte c <? strings.RuneSelf) = true.
Proof.
  unfold upperByte. intros Ha. rewrite Ha.
  unfold isLower, strings.byte in Ha.
  apply andb_prop in Ha as [Ha1 Ha2]. apply N.leb_le in Ha1, Ha2.
  assert (Hup : N_of_ascii (ascii_of_N (N_of_ascii a - 32)) = N_of_ascii a - 32).
  { apply N_ascii_embedding. lia. }
  unfold strings.foldEqByte, strings.byte, strings.RuneSelf.
  intros [->| ->].
  - rewrite N.eqb_refl. split; [done|]. apply N.ltb_lt. lia.
  - rewrite Hup. split; [|apply N.ltb_lt; lia].
    destruct (N.eqb_spec (N_of_ascii a) (N_of_ascii a - 32)); [done|].
    apply andb_true_iff. split; [apply andb_true_iff; split|].
    + apply N.leb_le. lia.
    + apply N.leb_le. lia.
    + apply N.eqb_eq. lia.
Qed.

Lemma casing_EqualFold name : forall s,
  allLower name = true ->
  isCasingOf name s = true ->
  strings.EqualFold U s name = true /\ strings.isASCII s = true.
Proof.
  induction name as [|a name IH]; intros [|c s]; simpl; try done.
  intros [Ha Hname]%andb_prop [Hc Hs]%andb_prop.
  assert (Hca : c = a \/ c = upperByte a).
  { apply orb_prop in Hc as [Hc|Hc]; apply Ascii.eqb_eq in Hc; auto. }
  destruct (casing_foldEqByte c a Ha Hca) as [Hf Hlt].
  destruct (IH s Hname Hs) as [Hrest Hascii].
  rewrite Hlt, Hascii. split; [|done].
  assert (Hlow := Ha). unfold isLower in Hlow.
  apply andb_prop in Hlow as [_ Ha2]. apply N.leb_le in Ha2.
  apply N.ltb_lt in Hlt. unfold strings.RuneSelf in *.
  destruct (N.leb_spec 128 (strings.byte c)); [lia|].
  destruct (N.leb_spec 128 (strings.byte a)); [lia|]. simpl.
  by rewrite Hf, Hrest.
Qed.

(** X1. On ASCII text [Eq] compares without regard to the case of
    letters and to nothing else: a category name equals exactly its own
    casings. *)
Theorem Eq_casings name s :
  In name types ->
  strings.isASCII s = true ->
  Eq U name s = true <-> isCasingOf name s = true.
Proof.
  intros Hname Hs.
  assert (Hlow : allLower name = true).
  { clear -Hname. repeat (destruct Hname as [<-|Hname]; [reflexivity|]). destruct Hname. }
  unfold Eq, String_. split.
  - by apply EqualFold_casing.
  - intros Hc. by apply casing_EqualFold.
Qed.

(** X2. [getType] answers [unfound] exactly when none of the five
    categories before it matches the line, whether the line then matches
    [unfound] or no category at all. *)
Theorem getType_unfound line :
  getType U line = TypeUnFound <->
  Forall (fun v => Match U v line = false)
    [TypeAlias; TypeKeyword; TypeFunction; TypeBuiltin; TypeFile].
Proof.
  unfold getType, types. simpl. rewrite !Forall_cons, Forall_nil.
  destruct (Match U TypeAlias line), (Match U TypeKeyword line),
    (Match U TypeFunction line), (Match U TypeBuiltin line),
    (Match U TypeFile line), (Match U TypeUnFound line); simpl;
    (split; [try discriminate; by intros _|try done; intros (?&?&?&?&?&_); discriminate]).
Qed.

Lemma find_first {A} (p : A -> bool) l x :
  find p l = Some x ->
  exists pre post, l = (pre ++ x :: post)%list /\
                   Forall (fun y => p y = false) pre /\ p x = true.
Proof.
  induction l as [|y l IH]; simpl; [done|].
  destruct (p y) eqn:Hy.
  - intros [= ->]. by exists [], l.
  - intros (pre & post & -> & Hpre & Hx)%IH.
    exists (y :: pre), post. repeat split; [|done]. by constructor.
Qed.

(** X3. For an ASCII line in which a match phrase occurs, [getType]
    returns the first category of the fixed order that has one of its
    phrases in the line: the comparison with the names never gets in the
    way of the phrases. *)
Theorem getType_first_phrase line c :
  strings.isASCII line = true ->
  find (fun v => phraseHit v line) types = Some c ->
  getType U line = c.
Proof.
  intros Hascii (pre & post & Htypes & Hpre & Hc)%find_first.
  unfold getType. rewrite Htypes. apply firstMatch_earliest.
  - by apply (earliest_phrase_earliest_match U line pre c post).
  - rewrite Match_unfold, Hc. apply orb_true_r.
Qed.

End ClassifierMore.

Lemma Eq_casings_witness :
  In TypeBuiltin types /\ strings.isASCII "BuiltIn" = true /\
  (Eq asciiOnly TypeBuiltin "BuiltIn" = true <-> isCasingOf TypeBuiltin "BuiltIn" = true).
Proof.
  assert (Hin : In TypeBuiltin types) by (simpl; tauto).
  assert (Hs : strings.isASCII "BuiltIn" = true) by reflexivity.
  exact (conj Hin (conj Hs (Eq_casings asciiOnly TypeBuiltin "BuiltIn" Hin Hs))).
Defined.

Lemma getType_first_phrase_witness :
  strings.isASCII "ls is a shell function" = true /\
  find (fun v => phraseHit v "ls is a shell function") types = Some TypeFunction /\
  getType asciiOnly "ls is a shell function" = TypeFunction.
Proof.
  assert (Hs : strings.isASCII "ls is a shell function" = true) by reflexivity.
  assert (Hf : find (fun v => phraseHit v "ls is a shell function") types
               = Some TypeFunction) by reflexivity.
  exact (conj Hs (conj Hf (getType_first_phrase asciiOnly _ _ Hs Hf))).
Defined.

(** ** Further properties of the runner *)

Section RunnerMore.
Variable H : Host.

(** X4. [short2Long] gives back its argument or one of the three long
    modes, and these it leaves alone: translating twice is translating
    once. *)
Theorem short2Long_idempotent flag :
  (short2Long H flag = flag \/
   short2Long H flag = "type" \/ short2Long H flag = "all" \/
   short2Long H flag = "path") /\
  short2Long H (short2Long H flag) = short2Long H flag.
Proof.
  assert (Hrange : short2Long H flag = flag /\
                   shortFlagMap !! strings.ToLower (unicode H) flag = None \/
                   short2Long H flag = "type" \/ short2Long H flag = "all" \/
                   short2Long H flag = "path").
  { unfold short2Long, shortFlagMap.
    destruct (_ !! _) as [v|] eqn:Hv; [right|by left].
    rewrite !lookup_insert in Hv. repeat case_decide; simplify_eq; auto. }
  split; [tauto|].
  destruct Hrange as [[Hsame Hnone]|[->|[->| ->]]]; try reflexivity.
  rewrite Hsame. unfold short2Long. by rewrite Hnone.
Qed.

(** *** Lines and pieces *)

Lemma append_assoc a b c : (a ++ b) ++ c = a ++ b ++ c.
Proof.
  induction a as [|x a IH]; [done|].
  change (String x ((a ++ b) ++ c) = String x (a ++ b ++ c)). by f_equal.
Qed.

Lemma append_nil_r a : a ++ "" = a.
Proof.
  induction a as [|x a IH]; [done|].
  change (String x (a ++ "") = String x a). by f_equal.
Qed.

Lemma rev_app_acc s : forall acc, String.rev_app s acc = String.rev s ++ acc.
Proof.
  unfold String.rev. induction s as [|x s IH]; intros acc; simpl; [done|].
  rewrite (IH (String x acc)), (IH (String x "")). by rewrite append_assoc.
Qed.

Lemma rev_cons x s : String.rev (String x s) = String.rev s ++ String x "".
Proof. unfold String.rev at 1. simpl. apply rev_app_acc. Qed.

Lemma rev_snoc s x : String.rev (s ++ String x "") = String x (String.rev s).
Proof.
  assert (Hgen : forall acc, String.rev_app (s ++ String x "") acc
                             = String x (String.rev_app s acc)).
  { induction s as [|y s IH]; intros acc; [done|].
    change (String.rev_app (s ++ String x "") (String y acc)
            = String x (String.rev_app s (String y acc))). apply IH. }
  apply Hgen.
Qed.

Lemma HasPrefix_nil s : strings.HasPrefix s "" = true.
Proof. by destruct s. Qed.

(** A text that ends in a newline is seen to end in one. *)
Lemma HasSuffix_newline s : strings.HasSuffix (s ++ newline) newline = true.
Proof.
  unfold strings.HasSuffix, newline. rewrite rev_snoc.
  change (Ascii.eqb "010" "010" && strings.HasPrefix (String.rev s) "" = true).
  by rewrite HasPrefix_nil.
Qed.

Lemma rendered_newline out : strings.HasSuffix (rendered out) newline = true.
Proof.
  unfold rendered. destruct (strings.HasSuffix out newline) eqn:Hs; [done|].
  apply HasSuffix_newline.
Qed.

Lemma splitLoop_step sep c s cur :
  strings.splitLoop sep (String c s) O cur =
  if strings.HasPrefix (String c s) sep
  then String.rev cur :: strings.splitLoop sep s (String.length sep - 1) ""
  else strings.splitLoop sep s O (String c cur).
Proof. reflexivity. Qed.

Lemma before_step sep c s :
  before sep (String c s) =
  if strings.HasPrefix (String c s) sep then "" else String c (before sep s).
Proof. reflexivity. Qed.

Lemma Contains_step c s substr :
  strings.Contains (String c s) substr =
  strings.HasPrefix (String c s) substr || strings.Contains s substr.
Proof. reflexivity. Qed.

(** The pieces of [Split]: the first is the text before the separator,
    and there is a second exactly when the separator occurs. *)
Lemma splitLoop_first sep :
  sep <> "" ->
  forall s cur, exists rest,
    strings.splitLoop sep s O cur = (String.rev cur ++ before sep s) :: rest /\
    (rest = [] <-> strings.Contains s sep = false).
Proof.
  intros Hsep. induction s as [|c s IH]; intros cur.
  - exists []. simpl. rewrite append_nil_r. split; [done|]. split; [|done].
    intros _. by destruct sep.
  - rewrite splitLoop_step, before_step, Contains_step.
    destruct (strings.HasPrefix (String c s) sep).
    + destruct (splitLoop_nonempty sep s (String.length sep - 1)%nat "")
        as (piece & rest & ->).
      exists (piece :: rest). rewrite append_nil_r. by split.
    + destruct (IH (String c cur)) as (rest & -> & Hrest).
      exists rest. rewrite rev_cons, append_assoc. by split.
Qed.

(** Splitting on [is] at its first occurrence. *)
Lemma splitLoop_is a : forall cur b,
  strings.Contains a "is" = false ->
  strings.splitLoop "is" (a ++ "is" ++ b) O cur =
  (String.rev cur ++ a) :: strings.splitLoop "is" b O "".
Proof.
  induction a as [|c a IH]; intros cur b Ha.
  - change ("" ++ "is" ++ b) with (String "i" (String "s" b)).
    rewrite splitLoop_step.
    change (strings.HasPrefix (String "i" (String "s" b)) "is")
      with (strings.HasPrefix b "").
    by rewrite HasPrefix_nil, append_nil_r.
  - rewrite Contains_step in Ha. apply orb_false_elim in Ha as [Hpre Ha].
    change (String c a ++ "is" ++ b) with (String c (a ++ "is" ++ b)).
    rewrite splitLoop_step.
    assert (Hno : strings.HasPrefix (String c (a ++ "is" ++ b)) "is" = false).
    { change (Ascii.eqb c "i" && strings.HasPrefix (a ++ "is" ++ b) "s" = false).
      change (Ascii.eqb c "i" && strings.HasPrefix a "s" = false) in Hpre.
      destruct (Ascii.eqb c "i"); [simpl in *|done].
      destruct a as [|d a]; [done|].
      change (Ascii.eqb d "s" && strings.HasPrefix (a ++ "is" ++ b) "" = false).
      change (Ascii.eqb d "s" && strings.HasPrefix a "" = false) in Hpre.
      by rewrite HasPrefix_nil in *. }
    rewrite Hno, (IH (String c cur) b Ha), rev_cons, append_assoc. done.
Qed.

(** *** The handlers *)

Lemma Split_lines bytes :
  exists rest,
    strings.Split (unicode H) bytes newline = firstLine bytes :: rest /\
    (rest = [] <-> strings.Contains bytes newline = false).
Proof.
  destruct (splitLoop_first newline ltac:(discriminate) bytes "") as (rest & Hs & Hr).
  exists rest. split; [exact Hs|exact Hr].
Qed.

Lemma selectedLine_some l rest : exists sel, selectedLine (l :: rest) = Some sel.
Proof. destruct rest as [|l1 rest]; [by exists l|by exists l1]. Qed.

(** [parsePath] on a lookup that succeeded, step by step. *)
Lemma parsePath_run cmd r bytes :
  Output H (bin r) ["-a"; cmd] = (bytes, None) ->
  exists sel more,
    selectedLine (strings.Split (unicode H) bytes newline) = Some sel /\
    strings.Split (unicode H) sel "is" = before "is" sel :: more /\
    (more = [] <-> strings.Contains sel "is" = false) /\
    parsePath H cmd r =
    (if String.eqb (getType (unicode H) (firstLine bytes)) TypeFile
     then match more with
          | [] => Panicked "runtime error: index out of range" r
          | path :: _ => Returned (strings.TrimSpace (unicode H) path, None) r
          end
     else Returned ("", None) r,
     [Spawn (bin r) ["-a"; cmd]]).
Proof.
  intros Hout.
  destruct (Split_lines bytes) as (rest & Hlines & _).
  destruct (selectedLine_some (firstLine bytes) rest) as (sel & Hsel).
  destruct (splitLoop_first "is" ltac:(discriminate) sel "") as (more & Hsplit & Hmore).
  exists sel, more. rewrite Hlines. repeat split; try done; try apply Hmore.
  unfold parsePath.
  eapply bind_run; [apply commandOutput_run| |reflexivity].
  rewrite Hout, Hlines.
  eapply bind_run; [reflexivity| |reflexivity].
  destruct (String.eqb _ TypeFile); [|done].
  unfold selectedLine in Hsel. unfold index at 1. rewrite Hsel.
  eapply bind_run; [reflexivity| |reflexivity].
  change (strings.Split (unicode H) sel "is") with (strings.splitLoop "is" sel O "").
  rewrite Hsplit. by destruct more.
Qed.

(** X5. In path mode a lookup whose first line is not classified as
    [file] gives the empty path, with no error, whatever the rest of the
    output. *)
Theorem parsePath_other_category cmd r bytes :
  Output H (bin r) ["-a"; cmd] = (bytes, None) ->
  getType (unicode H) (firstLine bytes) <> TypeFile ->
  parsePath H cmd r = (Returned ("", None) r, [Spawn (bin r) ["-a"; cmd]]).
Proof.
  intros Hout Hty%String.eqb_neq.
  destruct (parsePath_run cmd r bytes Hout) as (sel & more & _ & _ & _ & ->).
  by rewrite Hty.
Qed.

(** X6. In path mode, when the first line is classified as [file], the
    path is taken from the selected line (the second line, or the first
    when there is no second): it is the text between the first [is] of
    that line and the next one, if any, trimmed of white space. *)
Theorem parsePath_extracts cmd r bytes a b :
  Output H (bin r) ["-a"; cmd] = (bytes, None) ->
  getType (unicode H) (firstLine bytes) = TypeFile ->
  selectedLine (strings.Split (unicode H) bytes newline) = Some (a ++ "is" ++ b) ->
  strings.Contains a "is" = false ->
  parsePath H cmd r =
  (Returned (strings.TrimSpace (unicode H) (before "is" b), None) r,
   [Spawn (bin r) ["-a"; cmd]]).
Proof.
  intros Hout Hty%String.eqb_eq Hsel Ha.
  destruct (parsePath_run cmd r bytes Hout) as (sel & more & Hsel' & Hsplit & _ & ->).
  rewrite Hty. rewrite Hsel in Hsel'. injection Hsel' as <-.
  change (strings.Split (unicode H) (a ++ "is" ++ b) "is")
    with (strings.splitLoop "is" (a ++ "is" ++ b) O "") in Hsplit.
  rewrite (splitLoop_is a "" b Ha) in Hsplit.
  destruct (splitLoop_first "is" ltac:(discriminate) b "") as (rest & Hb & _).
  rewrite Hb in Hsplit. injection Hsplit as _ <-. done.
Qed.

(** X7. [parsePath] panics exactly when the lookup succeeded, its first
    line is classified as [file], and the selected line holds no [is]. *)
Theorem parsePath_panics_iff cmd r :
  returned (parsePath H cmd r) = None <->
  exists bytes sel,
    Output H (bin r) ["-a"; cmd] = (bytes, None) /\
    getType (unicode H) (firstLine bytes) = TypeFile /\
    selectedLine (strings.Split (unicode H) bytes newline) = Some sel /\
    strings.Contains sel "is" = false.
Proof.
  destruct (Output H (bin r) ["-a"; cmd]) as [bytes [msg|]] eqn:Hout.
  - split.
    + unfold parsePath.
      erewrite bind_run; [|apply commandOutput_run|by rewrite Hout|reflexivity]. done.
    + by intros (? & ? & [=] & _).
  - destruct (parsePath_run cmd r bytes Hout) as (sel & more & Hsel & _ & Hmore & ->).
    destruct (String.eqb_spec (getType (unicode H) (firstLine bytes)) TypeFile)
      as [Hty|Hty].
    + destruct more as [|path more]; cbv [returned].
      * split; [intros _|done]. exists bytes, sel. repeat split; try done.
        by apply Hmore.
      * split; [done|]. intros (bytes' & sel' & Heq & _ & Hsel'' & Hno).
        assert (sel' = sel) as -> by congruence.
        apply Hmore in Hno. discriminate.
    + cbv [returned]. split; [done|]. intros (bytes' & sel' & Heq & Hty' & _). congruence.
Qed.

(** X8. Type mode always returns, without an error and with the name of a
    category: [unfound] when the lookup failed or printed nothing, the
    category of the first line of the output otherwise. *)
Theorem parseType_value cmd r :
  let (bytes, err) := Output H (bin r) ["-a"; cmd] in
  let ty := match err with
            | Some _ => TypeUnFound
            | None => if String.eqb bytes "" then TypeUnFound
                      else getType (unicode H) (firstLine bytes)
            end in
  In ty types /\
  parseType H cmd r = (Returned (String_ ty, None) r, [Spawn (bin r) ["-a"; cmd]]).
Proof.
  destruct (Output H (bin r) ["-a"; cmd]) as [bytes err] eqn:Hout.
  assert (Hun : In TypeUnFound types) by (simpl; tauto).
  unfold parseType.
  destruct err as [msg|].
  - split; [done|].
    eapply bind_run; [apply commandOutput_run| |reflexivity]. by rewrite Hout.
  - destruct bytes as [|c bytes].
    + split; [done|].
      eapply bind_run; [apply commandOutput_run| |reflexivity]. by rewrite Hout.
    + change (String.eqb (String c bytes) "") with false. cbv iota.
      split; [apply getType_in_types|].
      eapply bind_run; [apply commandOutput_run| |reflexivity].
      rewrite Hout. change (String.length (String c bytes) <=? 0)%nat with false.
      destruct (Split_lines (String c bytes)) as (rest & -> & _). done.
Qed.

(** *** [Exec], case by case *)

Lemma ensured_streams r :
  outStream (ensured r) = outStream r /\ errStream (ensured r) = errStream r.
Proof. unfold ensured. by destruct (flagHandlers r). Qed.

Lemma render_exact out r :
  exists n,
    (if strings.HasSuffix out newline then print H [out] else println H [out]) r
    = (Returned n r, wrote H (outStream r) (rendered out)).
Proof.
  unfold rendered, outStream, wrote.
  destruct (strings.HasSuffix out newline); unfold print, println, bind at 1, this;
    destruct (output r) as [f|]; simpl.
  all: unfold bind, emit, ret; destruct (Writes H _); simpl; by eexists.
Qed.

Lemma errLog_exact args r :
  exists n,
    errLog H args r =
    (Returned n r, match errStream r with
                   | Some f => wrote H f (Sprintln args)
                   | None => []
                   end).
Proof.
  unfold errLog, errStream, wrote, bind at 1, this.
  destruct (output r) as [fo|]; simpl.
  - destruct (err r) as [f|]; simpl; [|by eexists].
    unfold bind, emit, ret. destruct (Writes H f); simpl; by eexists.
  - unfold bind, emit, ret. destruct (Writes H Stdout); simpl; by eexists.
Qed.

Lemma spawns_wrote f text : spawns (wrote H f text) = [].
Proof. unfold wrote. by destruct (Writes H f). Qed.

Lemma Exec_not_bound flag cmd r :
  bin r = "" ->
  Exec H flag cmd r =
  (Returned {| Result.output := ""; Result.err := Some notBoundError |} (ensured r),
   match errStream r with
   | Some f => wrote H f ("cmd err: " ++ notBoundError ++ newline)
   | None => []
   end).
Proof.
  intros Hb. unfold Exec.
  eapply bind_run; [apply check_run| |reflexivity].
  rewrite Hb. cbv iota.
  change (String.eqb "" "") with true. cbv iota.
  destruct (errLog_exact ["cmd err:"; "miss init type built env:" ++ builtInType]
              (ensured r)) as (n & Hlog).
  eapply bind_run; [exact Hlog|reflexivity|].
  destruct (ensured_streams r) as [_ ->]. by rewrite app_nil_r.
Qed.

Lemma Exec_no_handler flag cmd r :
  bin r <> "" -> cmd <> "" ->
  default ∅ (flagHandlers (ensured r)) !! normalized H flag = None ->
  Exec H flag cmd r =
  (Returned {| Result.output := "";
               Result.err := Some (normalized H flag ++ ":flag undefined ") |}
     (ensured r), wrote H (outStream r) newline).
Proof.
  intros Hb%String.eqb_neq Hcmd%String.eqb_neq Hnone.
  destruct (render_exact "" (ensured r)) as (n & Hrender).
  unfold Exec. eapply bind_run; [apply check_run| |reflexivity].
  rewrite Hb, Hcmd.
  eapply bind_run; [reflexivity| |reflexivity].
  fold (normalized H flag). rewrite Hnone.
  eapply bind_run; [reflexivity| |reflexivity].
  eapply bind_run; [exact Hrender|reflexivity|].
  destruct (ensured_streams r) as [-> _]. by rewrite app_nil_r.
Qed.

Lemma Exec_call flag cmd r fn res t :
  bin r <> "" -> cmd <> "" ->
  default ∅ (flagHandlers (ensured r)) !! normalized H flag = Some fn ->
  call H fn cmd (ensured r) = (Returned res (ensured r), t) ->
  Exec H flag cmd r =
  (Returned {| Result.output := res.1; Result.err := res.2 |} (ensured r),
   (t ++ wrote H (outStream r) (rendered res.1))%list).
Proof.
  intros Hb%String.eqb_neq Hcmd%String.eqb_neq Hfn Hcall.
  destruct res as [out e].
  destruct (render_exact out (ensured r)) as (n & Hrender).
  unfold Exec. eapply bind_run; [apply check_run| |reflexivity].
  rewrite Hb, Hcmd.
  eapply bind_run; [reflexivity| |reflexivity].
  fold (normalized H flag). rewrite Hfn.
  eapply bind_run.
  - eapply bind_run; [exact Hcall|reflexivity|reflexivity].
  - eapply bind_run; [exact Hrender|reflexivity|reflexivity].
  - destruct (ensured_streams r) as [-> _]. simpl. by rewrite !app_nil_r.
Qed.

Lemma Exec_call_panics flag cmd r fn msg t :
  bin r <> "" -> cmd <> "" ->
  default ∅ (flagHandlers (ensured r)) !! normalized H flag = Some fn ->
  call H fn cmd (ensured r) = (Panicked msg (ensured r), t) ->
  Exec H flag cmd r = (Panicked msg (ensured r), t).
Proof.
  intros Hb%String.eqb_neq Hcmd%String.eqb_neq Hfn Hcall.
  unfold Exec. eapply bind_run; [apply check_run| |reflexivity].
  rewrite Hb, Hcmd.
  eapply bind_run; [reflexivity| |reflexivity].
  fold (normalized H flag). rewrite Hfn.
  unfold bind at 1. unfold bind at 1. by rewrite Hcall.
Qed.

(** A handler starts the lookup once, then returns without an error or
    panics; it leaves the runner as it is. *)
Lemma call_run fn cmd r :
  (exists out, call H fn cmd r = (Returned (out, None) r, [Spawn (bin r) ["-a"; cmd]])) \/
  (exists msg, call H fn cmd r = (Panicked msg r, [Spawn (bin r) ["-a"; cmd]])).
Proof.
  destruct fn; simpl.
  - destruct (parseType_returns H cmd r) as (ty & _ & ->). eauto.
  - left. unfold parseAll.
    destruct (Output H (bin r) ["-a"; cmd]) as [bytes e] eqn:Hout.
    exists (match e with Some _ => cmd ++ " not found" | None => bytes end).
    eapply bind_run; [apply commandOutput_run| |reflexivity].
    rewrite Hout. by destruct e.
  - destruct (Output H (bin r) ["-a"; cmd]) as [bytes [e|]] eqn:Hout.
    + left. exists (cmd ++ " not found"). unfold parsePath.
      eapply bind_run; [apply commandOutput_run| |reflexivity]. by rewrite Hout.
    + destruct (parsePath_run cmd r bytes Hout) as (sel & more & _ & _ & _ & ->).
      destruct (String.eqb _ TypeFile); [|eauto].
      destruct more; eauto.
Qed.

Lemma Exec_empty_command_run flag r :
  bin r <> "" ->
  Exec H flag "" r =
  (Returned {| Result.output := ""; Result.err := None |} (ensured r), []).
Proof.
  intros Hb%String.eqb_neq. unfold Exec.
  eapply bind_run; [apply check_run| |reflexivity]. by rewrite Hb.
Qed.

(** All the ways [Exec] can go. *)
Lemma Exec_cases flag cmd r :
  let table := default ∅ (flagHandlers (ensured r)) in
  let lookup := Spawn (bin r) ["-a"; cmd] in
  (bin r = "" /\
   Exec H flag cmd r =
   (Returned {| Result.output := ""; Result.err := Some notBoundError |} (ensured r),
    match errStream r with
    | Some f => wrote H f ("cmd err: " ++ notBoundError ++ newline)
    | None => []
    end)) \/
  (bin r <> "" /\ cmd = "" /\
   Exec H flag cmd r =
   (Returned {| Result.output := ""; Result.err := None |} (ensured r), [])) \/
  (bin r <> "" /\ cmd <> "" /\ table !! normalized H flag = None /\
   Exec H flag cmd r =
   (Returned {| Result.output := "";
                Result.err := Some (normalized H flag ++ ":flag undefined ") |}
      (ensured r), wrote H (outStream r) newline)) \/
  (bin r <> "" /\ cmd <> "" /\ table !! normalized H flag <> None /\
   exists out,
     Exec H flag cmd r =
     (Returned {| Result.output := out; Result.err := None |} (ensured r),
      lookup :: wrote H (outStream r) (rendered out))) \/
  (bin r <> "" /\ cmd <> "" /\ table !! normalized H flag <> None /\
   exists msg, Exec H flag cmd r = (Panicked msg (ensured r), [lookup])).
Proof.
  intros table lookup.
  destruct (String.eqb_spec (bin r) "") as [Hb|Hb].
  { left. split; [done|]. by apply Exec_not_bound. }
  right. destruct (String.eqb_spec cmd "") as [->|Hcmd].
  { left. repeat split; try done. by apply Exec_empty_command_run. }
  right. destruct (table !! normalized H flag) as [fn|] eqn:Hfn.
  - right. pose proof (call_run fn cmd (ensured r)) as Hcall.
    rewrite ensured_bin in Hcall. fold lookup in Hcall.
    destruct Hcall as [[out Hcall]|[msg Hcall]].
    + left. repeat split; try done. exists out.
      by rewrite (Exec_call flag cmd r fn (out, None) [lookup] Hb Hcmd Hfn Hcall).
    + right. repeat split; try done. exists msg.
      by apply (Exec_call_panics flag cmd r fn).
  - left. repeat split; try done. by apply Exec_no_handler.
Qed.

(** X9. On a runner that is not bound [Exec] stops at [check], whatever
    the mode and the command name: the result carries the configuration
    error and no output, the error is reported through [errLog], and no
    subprocess is started. *)
Theorem Exec_configuration_error flag cmd r :
  bin r = "" ->
  Exec H flag cmd r =
  (Returned {| Result.output := ""; Result.err := Some notBoundError |} (ensured r),
   match errStream r with
   | Some f => wrote H f ("cmd err: " ++ notBoundError ++ newline)
   | None => []
   end) /\
  spawns (events (Exec H flag cmd r)) = [].
Proof.
  intros Hb. rewrite (Exec_not_bound flag cmd r Hb). split; [done|].
  unfold events. simpl. destruct (errStream r); [apply spawns_wrote|done].
Qed.

(** X10. [Exec] starts at most one subprocess, and only the bound binary
    with the arguments [-a] and the command name.  It starts none exactly
    when the runner is not bound, the command name is empty, or the mode
    has no handler. *)
Theorem Exec_spawns flag cmd r :
  (spawns (events (Exec H flag cmd r)) = [] \/
   spawns (events (Exec H flag cmd r)) = [Spawn (bin r) ["-a"; cmd]]) /\
  (spawns (events (Exec H flag cmd r)) = [] <->
   bin r = "" \/ cmd = "" \/
   default ∅ (flagHandlers (ensured r)) !! normalized H flag = None).
Proof.
  destruct (Exec_cases flag cmd r)
    as [[Hb ->]|[(Hb & Hcmd & ->)|[(Hb & Hcmd & Hfn & ->)|
        [(Hb & Hcmd & Hfn & out & ->)|(Hb & Hcmd & Hfn & msg & ->)]]]];
    unfold events; simpl.
  - assert (Hs : spawns match errStream r with
                        | Some f => wrote H f ("cmd err: " ++ notBoundError ++ newline)
                        | None => []
                        end = []).
    { destruct (errStream r); [apply spawns_wrote|done]. }
    rewrite Hs. split; [by left|]. split; [by left|done].
  - split; [by left|]. split; [by right; left|done].
  - rewrite spawns_wrote. split; [by left|]. split; [by right; right|done].
  - change (spawns (Spawn (bin r) ["-a"; cmd] :: ?t))
      with (Spawn (bin r) ["-a"; cmd] :: spawns t).
    rewrite spawns_wrote. split; [by right|].
    split; [done|]. intros [?|[?|?]]; done.
  - split; [by right|]. split; [done|]. intros [?|[?|?]]; done.
Qed.

(** X11. A result of [Exec] with an error carries no output text, and no
    subprocess was started for it: the handlers never return an error. *)
Theorem Exec_error_result flag cmd r rs :
  returned (Exec H flag cmd r) = Some rs ->
  Result.err rs <> None ->
  Result.output rs = "" /\ spawns (events (Exec H flag cmd r)) = [].
Proof.
  destruct (Exec_cases flag cmd r)
    as [[Hb ->]|[(Hb & Hcmd & ->)|[(Hb & Hcmd & Hfn & ->)|
        [(Hb & Hcmd & Hfn & out & ->)|(Hb & Hcmd & Hfn & msg & ->)]]]];
    unfold events; simpl; intros [= <-] Herr; try done; simpl.
  - split; [done|]. destruct (errStream r); [apply spawns_wrote|done].
  - split; [done|]. apply spawns_wrote.
Qed.

(** X12. [Exec] leaves the binding and the three files of the runner as
    they are, also when a handler panics; the one thing it may change is
    the handler table, which it creates when it is missing. *)
Theorem Exec_keeps_runner flag cmd r :
  bin (after (Exec H flag cmd r)) = bin r /\
  err (after (Exec H flag cmd r)) = err r /\
  output (after (Exec H flag cmd r)) = output r /\
  input (after (Exec H flag cmd r)) = input r /\
  flagHandlers (after (Exec H flag cmd r))
    = Some (default createHandlers (flagHandlers r)).
Proof. rewrite after_Exec. unfold ensured. by destruct r as [b e o i [hs|]]. Qed.

(** X13. For every runner the package can produce, the modes [Exec]
    has a handler for are [type], [all] and [path] and no other, each with
    its own handler. *)
Theorem Exec_registered_modes flag cmd r mode fn :
  reachable H r ->
  default ∅ (flagHandlers (after (Exec H flag cmd r))) !! mode = Some fn <->
  (mode = "type" /\ fn = fnParseType) \/
  (mode = "all" /\ fn = fnParseAll) \/
  (mode = "path" /\ fn = fnParsePath).
Proof.
  intros Hr. rewrite after_Exec, (ensured_handlers H r Hr). simpl default.
  unfold createHandlers. rewrite !lookup_insert.
  repeat case_decide; subst; rewrite ?lookup_empty;
    (split; [intros [= <-]; tauto|intros [[? ->]|[[? ->]|[? ->]]]; congruence]).
Qed.

(** X14. When [Exec] gets past [check] with a command name and returns,
    the last thing it does is one write of the output text to the output
    file of the runner (standard output when it has none), with a newline
    at the end, added when the text has none; before that it has written
    nothing. *)
Theorem Exec_writes_line flag cmd r rs :
  bin r <> "" -> cmd <> "" ->
  returned (Exec H flag cmd r) = Some rs ->
  exists t,
    events (Exec H flag cmd r)
      = (t ++ wrote H (outStream r) (rendered (Result.output rs)))%list /\
    spawns t = t /\
    strings.HasSuffix (rendered (Result.output rs)) newline = true.
Proof.
  intros Hb Hcmd.
  destruct (Exec_cases flag cmd r)
    as [[Hb' _]|[(_ & Hcmd' & _)|[(_ & _ & Hfn & ->)|
        [(_ & _ & Hfn & out & ->)|(_ & _ & Hfn & msg & ->)]]]];
    try done; unfold events; simpl; intros [= <-]; simpl.
  - exists []. by repeat split.
  - exists [Spawn (bin r) ["-a"; cmd]]. repeat split. apply rendered_newline.
Qed.

(** X15. On a runner fresh from [NewRunner] the only error [Exec] can
    return is that of a mode that is none of [type], [all] and [path]:
    the configuration error cannot occur. *)
Theorem Exec_fresh_runner err input output flag cmd rs :
  returned (Exec H flag cmd (NewRunner H err input output)) = Some rs ->
  Result.err rs = None \/
  (Result.err rs = Some (normalized H flag ++ ":flag undefined ") /\
   normalized H flag <> "type" /\ normalized H flag <> "all" /\
   normalized H flag <> "path").
Proof.
  pose proof (NewRunner_bound H err input output) as Hbound.
  destruct (Exec_cases flag cmd (NewRunner H err input output))
    as [[Hb _]|[(_ & _ & ->)|[(_ & _ & Hfn & ->)|
        [(_ & _ & Hfn & out & ->)|(_ & _ & Hfn & msg & ->)]]]];
    try done; simpl; intros [= <-]; simpl; auto.
  right. split; [done|].
  change (createHandlers !! normalized H flag = None) in Hfn.
  repeat split; intros Heq; by rewrite Heq in Hfn.
Qed.

(** *** [Bind] *)

Lemma noSpawn_spawns t : noSpawn t -> spawns t = [].
Proof.
  induction 1 as [|e t He _ IH]; [done|].
  unfold spawns in *. simpl. by rewrite He.
Qed.

(** X16. [Bind] with a relative path: when the path has an absolute form
    that names an existing file, the runner is bound to that form and
    nothing is written; otherwise the binding stays and the error of
    [filepath.Abs] or [os.Stat] is reported through [errLog]. *)
Theorem Bind_relative path r :
  path <> "" -> IsAbs path = false ->
  Bind H path r =
  match Abs H path with
  | (p, None) =>
      match Stat H p with
      | None => (Returned tt (setBin r p), [])
      | Some msg =>
          (Returned tt r,
           match errStream r with
           | Some f => wrote H f ("ERROR: " ++ msg ++ newline)
           | None => []
           end)
      end
  | (_, Some msg) =>
      (Returned tt r,
       match errStream r with
       | Some f => wrote H f ("ERROR: " ++ msg ++ newline)
       | None => []
       end)
  end.
Proof.
  intros Hpath%String.eqb_neq Habs. unfold Bind. rewrite Hpath, Habs. simpl.
  assert (Hlog : forall msg,
             (let* _ := errLog H ["ERROR:"; msg] in ret tt) r =
             (Returned tt r,
              match errStream r with
              | Some f => wrote H f ("ERROR: " ++ msg ++ newline)
              | None => []
              end)).
  { intros msg. destruct (errLog_exact ["ERROR:"; msg] r) as (n & Hn).
    eapply bind_run; [exact Hn|reflexivity|]. by rewrite app_nil_r. }
  destruct (Abs H path) as [p [msg|]]; [apply Hlog|].
  destruct (Stat H p) as [msg|]; [apply Hlog|done].
Qed.

(** X17. [Bind] always returns, starts no subprocess, and leaves the
    files and the handler table of the runner as they are.  The binding
    changes in one case only: to the absolute form of a relative path,
    when that form names an existing file. *)
Theorem Bind_safe path r :
  exists r' t,
    Bind H path r = (Returned tt r', t) /\
    spawns t = [] /\
    err r' = err r /\ output r' = output r /\ input r' = input r /\
    flagHandlers r' = flagHandlers r /\
    (bin r' = bin r \/
     (path <> "" /\ IsAbs path = false /\
      Abs H path = (bin r', None) /\ Stat H (bin r') = None)).
Proof.
  destruct (String.eqb_spec path "") as [->|Hpath].
  { exists r, []. repeat split; auto. }
  destruct (IsAbs path) eqn:Habs.
  { exists r, []. rewrite (Bind_absolute H path r Habs). repeat split; auto. }
  rewrite (Bind_relative path r Hpath Habs).
  assert (Hs : forall msg,
             spawns match errStream r with
                    | Some f => wrote H f ("ERROR: " ++ msg ++ newline)
                    | None => []
                    end = []).
  { intros msg. destruct (errStream r); [apply spawns_wrote|done]. }
  destruct (Abs H path) as [p [msg|]] eqn:Hp.
  - exists r. eexists. split; [reflexivity|]. split; [apply Hs|]. repeat split; auto.
  - destruct (Stat H p) as [msg|] eqn:Hstat.
    + exists r. eexists. split; [reflexivity|]. split; [apply Hs|]. repeat split; auto.
    + exists (setBin r p), []. repeat split; auto.
Qed.

(** *** [cmd.Run] *)

Lemma Exec_spawn_list flag cmd r :
  spawns (events (Exec H flag cmd r)) = [] \/
  spawns (events (Exec H flag cmd r)) = [Spawn (bin r) ["-a"; cmd]].
Proof.
  destruct (Exec_cases flag cmd r)
    as [[Hb ->]|[(Hb & Hcmd & ->)|[(Hb & Hcmd & Hfn & ->)|
        [(Hb & Hcmd & Hfn & out & ->)|(Hb & Hcmd & Hfn & msg & ->)]]]];
    unfold events; simpl.
  - left. destruct (errStream r); [apply spawns_wrote|done].
  - by left.
  - left. apply spawns_wrote.
  - right.
    change (spawns (Spawn (bin r) ["-a"; cmd] :: ?t))
      with (Spawn (bin r) ["-a"; cmd] :: spawns t).
    by rewrite spawns_wrote.
  - by right.
Qed.

Lemma events_after {A} (x : Outcome A * list Event) t :
  events (let (o, t') := x in (o, (t ++ t')%list)) = (t ++ events x)%list.
Proof. by destruct x. Qed.

Lemma events_discard {A} (m : Go A) r :
  events (bind m (fun _ => ret tt) r) = events (m r).
Proof.
  unfold bind, events. destruct (m r) as [[a r'|msg r'] t]; simpl; [|done].
  by rewrite app_nil_r.
Qed.

(** X18. [Run] binds the runner and then acts on the first flag that is
    given, in the order [path], [all], [type], and on that one only: its
    events are those of [Bind] followed by those of one [Exec] in that
    mode, or by none when no flag is given.  So it starts at most one
    subprocess, the lookup of the command of that flag. *)
Theorem Run_first_supplied path GetString :
  exists r' t,
    Bind H path (NewRunner H (Some Stdin) (Some Stderr) (Some Stdout))
      = (Returned tt r', t) /\
    events (cmd.Run H path GetString) =
      (t ++ match firstSupplied GetString with
            | Some (mode, v) => events (Exec H mode v r')
            | None => []
            end)%list /\
    (spawns (events (cmd.Run H path GetString)) = [] \/
     exists mode v,
       firstSupplied GetString = Some (mode, v) /\
       spawns (events (cmd.Run H path GetString)) = [Spawn (bin r') ["-a"; v]]).
Proof.
  destruct (Bind_run H path (NewRunner H (Some Stdin) (Some Stderr) (Some Stdout)))
    as (r' & t & Hbind & _ & Ht).
  apply noSpawn_spawns in Ht.
  exists r', t. split; [done|].
  assert (Hev : events (cmd.Run H path GetString) =
                (t ++ match firstSupplied GetString with
                      | Some (mode, v) => events (Exec H mode v r')
                      | None => []
                      end)%list).
  { unfold cmd.Run, firstSupplied. unfold bind at 1. rewrite Hbind.
    rewrite events_after. simpl omap.
    repeat match goal with
           | |- context [GetString ?m] => destruct (GetString m) as [? [?|]]
           end; simpl.
    all: repeat match goal with
                | |- context [String.eqb ?v ""] => destruct (String.eqb_spec v "")
                end; simpl.
    all: by rewrite ?events_discard. }
  split; [done|].
  assert (Hsp : spawns (events (cmd.Run H path GetString)) =
                match firstSupplied GetString with
                | Some (mode, v) => spawns (events (Exec H mode v r'))
                | None => []
                end).
  { rewrite Hev. unfold spawns. rewrite List.filter_app. fold (spawns t).
    rewrite Ht. simpl. by destruct (firstSupplied GetString) as [[? ?]|]. }
  rewrite Hsp.
  destruct (firstSupplied GetString) as [[mode v]|]; [|by left].
  destruct (Exec_spawn_list mode v r') as [Hs|Hs]; [by left|].
  right. by exists mode, v.
Qed.

End RunnerMore.

(** *** Concrete runs of the further properties *)

Lemma parsePath_other_category_witness :
  Output (machine "ls is a shell builtin" None) "/usr/bin/type" ["-a"; "ls"]
    = ("ls is a shell builtin", None) /\
  getType asciiOnly (firstLine "ls is a shell builtin") <> TypeFile /\
  parsePath (machine "ls is a shell builtin" None) "ls"
      (rootRunner (machine "ls is a shell builtin" None))
    = (Returned ("", None) (rootRunner (machine "ls is a shell builtin" None)),
       [Spawn "/usr/bin/type" ["-a"; "ls"]]).
Proof.
  assert (Hty : getType asciiOnly (firstLine "ls is a shell builtin") <> TypeFile)
    by (vm_compute; discriminate).
  split; [reflexivity|]. split; [exact Hty|].
  exact (parsePath_other_category (machine "ls is a shell builtin" None) "ls"
           (rootRunner (machine "ls is a shell builtin" None))
           "ls is a shell builtin" eq_refl Hty).
Defined.

Lemma parsePath_extracts_witness :
  Output (machine twoFiles None) "/usr/bin/type" ["-a"; "ls"] = (twoFiles, None) /\
  getType asciiOnly (firstLine twoFiles) = TypeFile /\
  selectedLine (strings.Split asciiOnly twoFiles newline)
    = Some ("ls " ++ "is" ++ " /bin/ls") /\
  strings.Contains "ls " "is" = false /\
  parsePath (machine twoFiles None) "ls" (rootRunner (machine twoFiles None))
    = (Returned ("/bin/ls", None) (rootRunner (machine twoFiles None)),
       [Spawn "/usr/bin/type" ["-a"; "ls"]]).
Proof.
  split; [reflexivity|]. split; [reflexivity|]. split; [reflexivity|].
  split; [reflexivity|].
  exact (parsePath_extracts (machine twoFiles None) "ls"
           (rootRunner (machine twoFiles None)) twoFiles "ls " " /bin/ls"
           eq_refl eq_refl eq_refl eq_refl).
Defined.

Lemma Exec_configuration_error_witness :
  bin zeroRunner = "" /\
  Exec (machine "" None) "type" "ls" zeroRunner =
  (Returned {| Result.output := ""; Result.err := Some notBoundError |}
     (ensured zeroRunner),
   [Written Stdout ("cmd err: " ++ notBoundError ++ newline)]) /\
  spawns (events (Exec (machine "" None) "type" "ls" zeroRunner)) = [].
Proof.
  split; [reflexivity|].
  exact (Exec_configuration_error (machine "" None) "type" "ls" zeroRunner eq_refl).
Defined.

Lemma Exec_error_result_witness :
  returned (Exec (machine "" None) "bogus" "ls" (rootRunner (machine "" None)))
    = Some {| Result.output := ""; Result.err := Some "bogus:flag undefined " |} /\
  Some "bogus:flag undefined " <> (None : error) /\
  "" = "" /\
  spawns (events (Exec (machine "" None) "bogus" "ls" (rootRunner (machine "" None))))
    = [].
Proof.
  assert (Hrs : returned (Exec (machine "" None) "bogus" "ls"
                            (rootRunner (machine "" None)))
                = Some {| Result.output := "";
                          Result.err := Some "bogus:flag undefined " |})
    by (vm_compute; reflexivity).
  assert (Herr : Some "bogus:flag undefined " <> (None : error)) by discriminate.
  split; [exact Hrs|]. split; [exact Herr|].
  exact (Exec_error_result (machine "" None) "bogus" "ls"
           (rootRunner (machine "" None)) _ Hrs Herr).
Defined.

Lemma Exec_registered_modes_witness :
  reachable (machine "" None) zeroRunner /\
  (default ∅ (flagHandlers (after (Exec (machine "" None) "type" "ls" zeroRunner)))
     !! "path" = Some fnParsePath <->
   ("path" = "type" /\ fnParsePath = fnParseType) \/
   ("path" = "all" /\ fnParsePath = fnParseAll) \/
   ("path" = "path" /\ fnParsePath = fnParsePath)).
Proof.
  assert (Hr : reachable (machine "" None) zeroRunner) by apply reach_zero.
  split; [exact Hr|].
  exact (Exec_registered_modes (machine "" None) "type" "ls" zeroRunner "path"
           fnParsePath Hr).
Defined.

Lemma Exec_writes_line_witness :
  bin (rootRunner (machine "ls is /bin/ls" None)) <> "" /\
  "ls" <> "" /\
  returned (Exec (machine "ls is /bin/ls" None) "type" "ls"
              (rootRunner (machine "ls is /bin/ls" None)))
    = Some {| Result.output := "file"; Result.err := None |} /\
  exists t,
    events (Exec (machine "ls is /bin/ls" None) "type" "ls"
              (rootRunner (machine "ls is /bin/ls" None)))
      = (t ++ wrote (machine "ls is /bin/ls" None)
                (outStream (rootRunner (machine "ls is /bin/ls" None)))
                (rendered "file"))%list /\
    spawns t = t /\
    strings.HasSuffix (rendered "file") newline = true.
Proof.
  assert (Hb : bin (rootRunner (machine "ls is /bin/ls" None)) <> "")
    by (vm_compute; discriminate).
  assert (Hcmd : "ls" <> "") by discriminate.
  assert (Hrs : returned (Exec (machine "ls is /bin/ls" None) "type" "ls"
                            (rootRunner (machine "ls is /bin/ls" None)))
                = Some {| Result.output := "file"; Result.err := None |})
    by (vm_compute; reflexivity).
  split; [exact Hb|]. split; [exact Hcmd|]. split; [exact Hrs|].
  exact (Exec_writes_line (machine "ls is /bin/ls" None) "type" "ls"
           (rootRunner (machine "ls is /bin/ls" None)) _ Hb Hcmd Hrs).
Defined.

Lemma Exec_fresh_runner_witness :
  returned (Exec (machine "" None) "-x" "ls"
              (NewRunner (machine "" None) None None None))
    = Some {| Result.output := ""; Result.err := Some "-x:flag undefined " |} /\
  ((Some "-x:flag undefined " : error) = None \/
   ((Some "-x:flag undefined " : error)
      = Some (normalized (machine "" None) "-x" ++ ":flag undefined ") /\
    normalized (machine "" None) "-x" <> "type" /\
    normalized (machine "" None) "-x" <> "all" /\
    normalized (machine "" None) "-x" <> "path")).
Proof.
  assert (Hrs : returned (Exec (machine "" None) "-x" "ls"
                            (NewRunner (machine "" None) None None None))
                = Some {| Result.output := "";
                          Result.err := Some "-x:flag undefined " |})
    by (vm_compute; reflexivity).
  split; [exact Hrs|].
  exact (Exec_fresh_runner (machine "" None) None None None "-x" "ls" _ Hrs).
Defined.

Lemma Bind_relative_witness :
  "mytype" <> "" /\ IsAbs "mytype" = false /\
  Bind (machine "" None) "mytype" (rootRunner (machine "" None))
    = (Returned tt (setBin (rootRunner (machine "" None)) "/work/mytype"), []).
Proof.
  assert (Hp : "mytype" <> "") by discriminate.
  split; [exact Hp|]. split; [reflexivity|].
  exact (Bind_relative (machine "" None) "mytype" (rootRunner (machine "" None))
           Hp eq_refl).
Defined.
